(** * MirrorNote: the voice-analysis flow, embedded and checked

    A shallow embedding of the parts of the MirrorNote repository that the
    specification's properties are about:

    - the backend analysis of a transcription ([analyze_transcription],
      [detect_filler_words], [generate_training_questions]) and the
      endpoint around it ([analyze_voice]), as quoted from
      [backend/server.py] in [VOICE_ANALYSIS_FLOW.md];
    - the result screens of the Expo frontend ([results.tsx],
      [PersonalizedResults.tsx], [types/index.ts]);
    - the recording timer and the display helpers exercised by
      [__tests__/api.test.ts];
    - the rule engine and the optional refiner of the acoustic pipeline,
      which ACOUSTIC_ANALYSIS_IMPLEMENTATION.md describes and whose code
      is not among the sources: these are modelled from the
      specification, and marked so.

    Python values are modelled as the interpreter has them: [int] as [Z],
    [float] as the kernel's binary64 floats, [str] as the list of its code
    points, [dict] as a finite map.  JavaScript numbers are binary64 floats
    too.  Part I holds the definitions, Part II the lemmas and theorems on
    the specification's properties, Part III further properties of the
    same code. *)

From Stdlib Require Import ZArith NArith List Bool Ascii String Lia.
From Stdlib Require Import Floats SpecFloat DecimalString.
From stdpp Require Import base option list gmap.

Set Default Proof Using "Type".
#[local] Open Scope Z_scope.

(* ===================================================================== *)
(** * Part I.  The model                                                 *)
(* ===================================================================== *)

(** ** Python strings *)

(** A [str] is the sequence of its code points. *)
Abbreviation pystr := (list N).

(** A literal of the source, which is ASCII throughout. *)
Definition py (s : string) : pystr :=
  List.map N_of_ascii (list_ascii_of_string s).

(** What CPython reads from its Unicode database and its formatting
    machinery, and what differs between its versions.  The ASCII range is
    written out below; the rest is a parameter of the model, so that
    every statement holds for whatever the database and the version
    say. *)
Class Runtime := {
  (** [Py_UNICODE_ISALNUM] on a code point above 127. *)
  uni_isalnum : N -> bool;
  (** [Py_UNICODE_ISSPACE] on a code point above 127. *)
  uni_isspace : N -> bool;
  (** [str.lower()] on a string that is not pure ASCII ([case_operation]
      with [do_lower], which is context dependent for the final sigma). *)
  uni_lower : pystr -> pystr;
  (** The text of the [TypeError] of [s[k]] on a [str] with a [str] key:
      "string indices must be integers" up to CPython 3.10, with
      ", not 'str'" added from 3.11 on. *)
  str_index_text : pystr;
  (** Class and text of what [d[:n]] raises on a [dict]: [TypeError],
      "unhashable type: 'slice'", up to CPython 3.11; from 3.12 on a
      slice can be hashed and the lookup ends in a [KeyError]. *)
  dict_slice_error : nat -> string * pystr;
  (** The text of the [UnboundLocalError] for a local variable: "local
      variable 'x' referenced before assignment" up to CPython 3.10,
      "cannot access local variable 'x' where it is not associated with
      a value" from 3.11 on. *)
  unbound_local_text : pystr -> pystr
}.

Definition is_ascii (c : N) : bool := (c <? 128)%N.

Definition in_range (lo hi c : N) : bool := ((lo <=? c) && (c <=? hi))%N.

Definition ascii_isupper (c : N) : bool := in_range 65 90 c.
Definition ascii_islower (c : N) : bool := in_range 97 122 c.
Definition ascii_isdigit (c : N) : bool := in_range 48 57 c.

(** [_Py_ascii_whitespace]: TAB, LF, VT, FF, CR, FS, GS, RS, US and space. *)
Definition ascii_isspace (c : N) : bool :=
  in_range 9 13 c || in_range 28 31 c || (c =? 32)%N.

(** [Py_TOLOWER] of an ASCII code point. *)
Definition ascii_tolower (c : N) : N :=
  if ascii_isupper c then (c + 32)%N else c.

Section Strings.
Context `{Runtime}.

(** [Py_UNICODE_ISSPACE]. *)
Definition isspace (c : N) : bool :=
  if is_ascii c then ascii_isspace c else uni_isspace c.

(** The regular-expression engine's [SRE_UNI_IS_WORD]: alphanumeric or
    the underscore. *)
Definition is_word (c : N) : bool :=
  if is_ascii c
  then ascii_isupper c || ascii_islower c || ascii_isdigit c || (c =? 95)%N
  else uni_isalnum c.

(** [str.lower()]: [unicode_lower_impl] takes the ASCII path when the
    whole string is ASCII. *)
Definition str_lower (s : pystr) : pystr :=
  if forallb is_ascii s then List.map ascii_tolower s else uni_lower s.

(** [str.split()] with no separator: the maximal runs of characters that
    are not whitespace.  [cur] is the run being read, last character
    first. *)
Fixpoint split_from (cur : pystr) (s : pystr) : list pystr :=
  match s with
  | [] => match cur with [] => [] | _ => [rev cur] end
  | c :: s' =>
      if isspace c
      then match cur with
           | [] => split_from [] s'
           | _ => rev cur :: split_from [] s'
           end
      else split_from (c :: cur) s'
  end.

Definition str_split (s : pystr) : list pystr := split_from [] s.

(** ** The regular expressions of [detect_filler_words] *)

(** The patterns of the source are sequences of literal characters and
    the assertion [\b]. *)
Inductive re_atom :=
| Bnd                (* \b *)
| Chr (c : N).       (* a literal character *)

(** [\b] followed by the literal [s] followed by [\b]. *)
Definition word_pattern (s : string) : list re_atom :=
  Bnd :: List.map Chr (py s) ++ [Bnd].

Definition is_word_opt (c : option N) : bool :=
  match c with Some c => is_word c | None => false end.

(** [SRE_AT_BOUNDARY]: the characters before and after the position
    differ in being word characters; outside the string counts as not a
    word character. *)
Definition at_boundary (prev : option N) (s : pystr) : bool :=
  xorb (is_word_opt prev) (is_word_opt (head s)).

(** Match the atoms at the start of [s], the character before being
    [prev]; the number of characters consumed. *)
Fixpoint match_here (p : list re_atom) (prev : option N) (s : pystr)
  : option nat :=
  match p with
  | [] => Some O
  | Bnd :: p' => if at_boundary prev s then match_here p' prev s else None
  | Chr c :: p' =>
      match s with
      | c' :: s' =>
          if (c =? c')%N then S <$> match_here p' (Some c') s' else None
      | [] => None
      end
  end.

(** [len(re.findall(p, s))]: scan from the left; after a match the scan
    resumes at its end (one further on after an empty match).  [skip]
    counts the characters of the last match still to pass. *)
Fixpoint findall_from (p : list re_atom) (prev : option N) (s : pystr)
  (skip : nat) : nat :=
  match s with
  | [] =>
      match skip, match_here p prev [] with
      | O, Some _ => 1%nat
      | _, _ => O
      end
  | c :: s' =>
      match skip with
      | S k => findall_from p (Some c) s' k
      | O =>
          match match_here p prev s with
          | Some n => S (findall_from p (Some c) s' (pred n))
          | None => findall_from p (Some c) s' O
          end
      end
  end.

Definition findall_len (p : list re_atom) (s : pystr) : nat :=
  findall_from p None s O.

(** ** [detect_filler_words] (VOICE_ANALYSIS_FLOW.md, Key Algorithms) *)

Definition filler_patterns : list (string * list re_atom) :=
  [ ("um", word_pattern "um");
    ("uh", word_pattern "uh");
    ("like", word_pattern "like");
    ("you know", word_pattern "you know");
    ("so", word_pattern "so");
    ("actually", word_pattern "actually");
    ("basically", word_pattern "basically") ]%string.

(** The dictionary comprehension, in the order of [filler_patterns]. *)
Definition filler_items (text : pystr) : list (pystr * Z) :=
  let text_lower := str_lower text in
  omap (fun '(filler, pattern) =>
          let n := Z.of_nat (findall_len pattern text_lower) in
          if 0 <? n then Some (py filler, n) else None)
       filler_patterns.

Definition detect_filler_words (text : pystr) : gmap pystr Z :=
  list_to_map (filler_items text).

End Strings.

(** ** Python numbers *)

(** [float(n)] for an [int]: the nearest binary64 value, ties to even.
    (CPython raises [OverflowError] past the largest float, where this
    gives an infinity; the source converts the literal 60 only.) *)
Definition float_of_Z (z : Z) : float :=
  SF2Prim (binary_normalize prec emax z 0 false).

(** [a / b] on two [int]s with [b] not zero ([long_true_divide]): the
    exact quotient, rounded once to the nearest binary64 value, ties to
    even; a quotient too small for a float is a zero.  An infinity
    stands for a quotient too large for a float. *)
Definition int_truediv_SF (a b : Z) : spec_float :=
  match a with
  | 0 => S754_zero (b <? 0)
  | _ =>
      let '(q, e, l) :=
        SFdiv_core_binary prec emax (Z.abs a) 0 (Z.abs b) 0 in
      binary_round_aux prec emax (xorb (a <? 0) (b <? 0)) q e l
  end.

(** The integer part of a finite float, toward zero. *)
Definition trunc_SF (x : spec_float) : option Z :=
  match x with
  | S754_zero _ => Some 0
  | S754_finite s m e =>
      let a := match e with
               | Z0 => Zpos m
               | Zpos p => Z.shiftl (Zpos m) (Zpos p)
               | Zneg p => Z.shiftr (Zpos m) (Zpos p)
               end in
      Some (if s then - a else a)
  | S754_infinity _ | S754_nan => None
  end.

(** ** Python values, exceptions and results *)

(** The values that cross the JSON and database boundaries. *)
#[warnings="-register-all"]
Inductive pyval :=
| PNone
| PBool (b : bool)
| PInt (z : Z)
| PFloat (f : float)
| PStr (s : pystr)
| PList (l : list pyval)
| PDict (d : gmap pystr pyval).

(** A raised exception: FastAPI's [HTTPException], or any other
    subclass of [Exception] by its class and its text [str(e)]. *)
Inductive exn :=
| HTTPException (status_code : Z) (detail : pystr)
| PyError (cls : string) (msg : pystr).

(** A call either raises or returns. *)
Abbreviation result := (sum exn).

#[global] Instance result_ret : MRet result := fun _ x => inr x.
#[global] Instance result_bind : MBind result := fun _ _ f m =>
  match m with inl e => inl e | inr x => f x end.

Definition raise {A} (e : exn) : result A := inl e.

(** [int(x)] of a float. *)
Definition py_int (f : float) : result Z :=
  match trunc_SF (Prim2SF f) with
  | Some z => mret z
  | None =>
      if PrimFloat.is_nan f
      then raise (PyError "ValueError" (py "cannot convert float NaN to integer"))
      else raise (PyError "OverflowError" (py "cannot convert float infinity to integer"))
  end.

(** [a / b] on two [int]s. *)
Definition truediv (a b : Z) : result float :=
  if b =? 0
  then raise (PyError "ZeroDivisionError" (py "division by zero"))
  else match int_truediv_SF a b with
       | S754_infinity _ =>
           raise (PyError "OverflowError"
                    (py "integer division result too large for a float"))
       | q => mret (SF2Prim q)
       end.

(** [repr(k)] of a string with no quote, backslash or unprintable
    character in it, as the keys of the source are. *)
Definition repr_str (k : pystr) : pystr := [39%N] ++ k ++ [39%N].

(** [d[k]] on a [dict]; the text of a [KeyError] is the [repr] of the
    key. *)
Definition getitem (d : gmap pystr pyval) (k : pystr) : result pyval :=
  match d !! k with
  | Some v => mret v
  | None => raise (PyError "KeyError" (repr_str k))
  end.

(** [str.replace(old, new)]: every occurrence of [old], left to right and
    without overlap.  (An empty [old] is not modelled: the source never
    passes one.) *)
Fixpoint starts_with (p s : pystr) : bool :=
  match p, s with
  | [], _ => true
  | a :: p', b :: s' => (a =? b)%N && starts_with p' s'
  | _ :: _, [] => false
  end.

Fixpoint replace_from (old new : pystr) (s : pystr) (skip : nat) : pystr :=
  match s with
  | [] => []
  | c :: s' =>
      match skip with
      | S k => replace_from old new s' k
      | O =>
          if starts_with old s
          then new ++ replace_from old new s' (pred (length old))
          else c :: replace_from old new s' O
      end
  end.

Definition str_replace (old new s : pystr) : pystr := replace_from old new s O.

(** ** The collaborators of the backend *)

(** A document of the [users] collection, as far as the code reads it. *)
Module User.
Record t := { id : pystr; isPremium : option bool }.
End User.

(** The body of [POST /api/analyze-voice] and the header the
    authentication reads. *)
Record VoiceAnalysisRequest := {
  authorization : option pystr;
  audio_base64 : pystr;
  user_id : pyval;
  recording_mode : pystr;
  recording_time : Z
}.

(** Everything the endpoint calls outside the repository: the database,
    the token library, OpenAI's two clients, and the builtins that are
    not written out here.  A call answers by its arguments. *)
Class Services := {
  (** [SECRET_KEY]. *)
  SECRET_KEY : pystr;
  (** [jwt.decode(token, SECRET_KEY, algorithms=["HS256"])]. *)
  jwt_decode : pystr -> pystr -> result (gmap pystr pyval);
  (** [db.users.find_one({"id": v})]. *)
  users_find_one : pyval -> option User.t;
  (** [db.assessments.count_documents] for the user, over the current
      month and over all time. *)
  count_this_month : pystr -> Z;
  count_total : pystr -> Z;
  (** [str(uuid.uuid4())], [tempfile.gettempdir()], [datetime.utcnow()]
      at its n-th call. *)
  uuid4 : pystr;
  gettempdir : pystr;
  utcnow : nat -> pyval;
  (** [base64.b64decode]. *)
  b64decode : pystr -> result (list N);
  (** [openai_audio_client.audio.transcriptions.create(...).text] on the
      bytes of the file. *)
  transcriptions_create : list N -> result pystr;
  (** [openai_text_client.chat.completions.create(...)] by the system and
      the user message: [choices[0].message.content]. *)
  chat_completions_create : pystr -> pystr -> result pystr;
  (** [json.loads]. *)
  json_loads : pystr -> result pyval;
  (** What an f-string writes for a value. *)
  format_value : pyval -> pystr
}.

(** What the endpoint does to the world, in order.  A database, log or
    file call is taken to succeed: the model records it as an event and
    goes on. *)
Inductive log_level := DEBUG | INFO | WARNING | ERROR | CRITICAL.

Inductive event :=
| DbInsert (collection : string) (doc : gmap pystr pyval)
| DbUpdate (collection : string) (filter set : gmap pystr pyval)
| Log (level : log_level) (msg : pystr)
| FileWrite (path : pystr) (data : list N)
| FileRemove (path : pystr).

(** A step of the endpoint: the events it caused, and how it ended. *)
Definition io (A : Type) : Type := list event * result A.

#[global] Instance io_ret : MRet io := fun _ x => ([], inr x).
#[global] Instance io_bind : MBind io := fun _ _ f m =>
  match m with
  | (tr, inl e) => (tr, inl e)
  | (tr, inr x) => let '(tr', r) := f x in (tr ++ tr', r)
  end.

Definition emit (e : event) : io unit := ([e], inr tt).
Definition call {A} (r : result A) : io A := ([], r).

Definition nl : pystr := [10%N].
Definition dquote : pystr := [34%N].

(** [type(v).__name__]. *)
Definition type_name (v : pyval) : pystr :=
  match v with
  | PNone => py "NoneType"
  | PBool _ => py "bool"
  | PInt _ => py "int"
  | PFloat _ => py "float"
  | PStr _ => py "str"
  | PList _ => py "list"
  | PDict _ => py "dict"
  end.

(** The [TypeError] of a value that is no mapping, and of one that has
    no [__getitem__]. *)
Definition not_a_mapping (v : pyval) : exn :=
  PyError "TypeError"
    (py "'" ++ type_name v ++ py "' object is not a mapping").

Definition not_subscriptable (v : pyval) : exn :=
  PyError "TypeError"
    (py "'" ++ type_name v ++ py "' object is not subscriptable").

(** [v[k]] for a [str] key [k], and [v[:n]], on a value. *)
Definition py_getitem `{Runtime} (v : pyval) (k : pystr) : result pyval :=
  match v with
  | PDict d => getitem d k
  | PList _ =>
      raise (PyError "TypeError"
               (py "list indices must be integers or slices, not str"))
  | PStr _ => raise (PyError "TypeError" str_index_text)
  | PNone | PBool _ | PInt _ | PFloat _ => raise (not_subscriptable v)
  end.

Definition py_slice_to `{Runtime} (n : nat) (v : pyval) : result pyval :=
  match v with
  | PList l => mret (PList (take n l))
  | PStr s => mret (PStr (take n s))
  | PDict _ =>
      let '(cls, msg) := dict_slice_error n in raise (PyError cls msg)
  | PNone | PBool _ | PInt _ | PFloat _ => raise (not_subscriptable v)
  end.

(** What [check_can_create_assessment] returns: ["allowed"], and
    ["reason"] when it refuses. *)
Module UsageCheck.
Record t := { allowed : bool; reason : option pystr }.
End UsageCheck.

Section Backend.
Context `{Runtime} `{Services}.

(** ** [get_current_user] (VOICE_ANALYSIS_FLOW.md, JWT Token Flow) *)

Definition get_current_user (request : VoiceAnalysisRequest) : result User.t :=
  match authorization request with
  | None =>
      raise (PyError "AttributeError"
               (py "'NoneType' object has no attribute 'replace'"))
  | Some auth_header =>
      let token := str_replace (py "Bearer ") [] auth_header in
      payload ← jwt_decode token SECRET_KEY;
      uid ← getitem payload (py "user_id");
      match users_find_one uid with
      | None => raise (HTTPException 401 (py "Not authenticated"))
      | Some user => mret user
      end
  end.

(** ** [check_can_create_assessment] (VOICE_ANALYSIS_FLOW.md, Usage Limits) *)

Definition check_can_create_assessment (user_id : pystr)
  : result UsageCheck.t :=
  match users_find_one (PStr user_id) with
  | None =>
      raise (PyError "AttributeError"
               (py "'NoneType' object has no attribute 'get'"))
  | Some user =>
      let is_premium := default false (User.isPremium user) in
      let '(count, limit) :=
        if is_premium
        then (count_this_month user_id, 30)
        else (count_total user_id, 5) in
      if limit <=? count
      then mret {| UsageCheck.allowed := false;
                   UsageCheck.reason := Some (py "Limit reached") |}
      else mret {| UsageCheck.allowed := true; UsageCheck.reason := None |}
  end.

(** ** [analyze_transcription] (VOICE_ANALYSIS_FLOW.md, Step 4) *)

Definition word_count_of (text : pystr) : Z :=
  Z.of_nat (length (str_split text)).

(** [int((word_count / recording_time) * 60)]. *)
Definition speaking_pace_of (word_count recording_time : Z) : result Z :=
  q ← truediv word_count recording_time;
  py_int (PrimFloat.mul q (float_of_Z 60)).

Definition analysis_prompt (text : pystr) (speaking_pace : Z) : pystr :=
  py "Analyze this voice transcription:" ++ nl ++
  py "    Transcription: " ++ dquote ++ text ++ dquote ++ nl ++
  py "    Speaking pace: " ++ format_value (PInt speaking_pace) ++ py " WPM" ++ nl ++
  py "    " ++ nl ++
  py "    Provide JSON:" ++ nl ++
  py "    - archetype, overall_score, clarity_score, confidence_score" ++ nl ++
  py "    - tone, strengths[], improvements[]" ++ nl ++
  py "    - pitch_avg, pitch_range" ++ nl ++
  py "    ".

(** [{**gpt_analysis, "speaking_pace": ..., "filler_words": ...,
    "word_count": ...}]. *)
Definition merge_analysis (gpt_analysis : gmap pystr pyval)
  (speaking_pace : Z) (filler_words : gmap pystr Z) (word_count : Z)
  : gmap pystr pyval :=
  <[py "word_count" := PInt word_count]>
    (<[py "filler_words" := PDict (PInt <$> filler_words)]>
       (<[py "speaking_pace" := PInt speaking_pace]> gpt_analysis)).

Definition analyze_transcription (text : pystr) (recording_time : Z)
  : result (gmap pystr pyval) :=
  let word_count := word_count_of text in
  speaking_pace ← speaking_pace_of word_count recording_time;
  let filler_words := detect_filler_words text in
  let prompt := analysis_prompt text speaking_pace in
  content ← chat_completions_create
              (py "You are an expert voice coach.") prompt;
  gpt_analysis ← json_loads content;
  match gpt_analysis with
  | PDict g => mret (merge_analysis g speaking_pace filler_words word_count)
  | _ => raise (not_a_mapping gpt_analysis)
  end.

(** ** [generate_training_questions] (VOICE_ANALYSIS_FLOW.md, Step 5) *)

Definition questions_prompt (archetype improvements : pyval) : pystr :=
  py "Generate 10 training questions based on:" ++ nl ++
  py "    - Archetype: " ++ format_value archetype ++ nl ++
  py "    - Improvements: " ++ format_value improvements ++ nl ++
  py "    " ++ nl ++
  py "    Format: JSON array with question, answer, is_free (first 3 true)" ++ nl ++
  py "    ".

Definition generate_training_questions (analysis : gmap pystr pyval)
  (transcription : pystr) : result pyval :=
  archetype ← getitem analysis (py "archetype");
  improvements ← getitem analysis (py "improvements");
  content ← chat_completions_create
              (py "You are a communication coach.")
              (questions_prompt archetype improvements);
  parsed ← json_loads content;
  questions ← py_getitem parsed (py "questions");
  py_slice_to 10 questions.

(** ** [analyze_voice] (VOICE_ANALYSIS_FLOW.md, Steps 1 to 6 and Error
    Handling) *)

(** Step 1: authentication and the usage check. *)
Definition authorize (request : VoiceAnalysisRequest) : result User.t :=
  user ← get_current_user request;
  usage_check ← check_can_create_assessment (User.id user);
  if UsageCheck.allowed usage_check
  then mret user
  else raise (HTTPException 403
                (default [] (UsageCheck.reason usage_check))).

(** Steps 2 to 6, once [assessment_id] is bound. *)
Definition process (request : VoiceAnalysisRequest) (user : User.t)
  (assessment_id : pystr) : io (gmap pystr pyval) :=
  emit (DbInsert "assessments"
          (<[py "assessment_id" := PStr assessment_id]>
             (<[py "user_id" := PStr (User.id user)]>
                (<[py "audio_data" := PStr (audio_base64 request)]>
                   (<[py "processed" := PBool false]>
                      {[ py "created_at" := utcnow 0 ]})))));;
  audio_bytes ← call (b64decode (audio_base64 request));
  let temp_audio_path :=
    gettempdir ++ py "/" ++ assessment_id ++ py ".m4a" in
  emit (FileWrite temp_audio_path audio_bytes);;
  transcription ← call (transcriptions_create audio_bytes);
  emit (FileRemove temp_audio_path);;
  analysis ← call (analyze_transcription transcription
                     (recording_time request));
  training_questions ← call (generate_training_questions analysis
                               transcription);
  emit (DbUpdate "assessments"
          {[ py "assessment_id" := PStr assessment_id ]}
          (<[py "transcription" := PStr transcription]>
             (<[py "analysis" := PDict analysis]>
                (<[py "processed" := PBool true]>
                   {[ py "processed_at" := utcnow 1 ]}))));;
  emit (DbInsert "training_questions"
          (<[py "assessment_id" := PStr assessment_id]>
             {[ py "questions" := training_questions ]}));;
  mret (<[py "assessment_id" := PStr assessment_id]>
          {[ py "status" := PStr (py "completed") ]}).

(** The handlers: an [HTTPException] is raised again as it is; any other
    exception is logged as an error, written to the assessment, and
    answered with status 500. *)
Definition on_exception (assessment_id : pystr) (e : exn)
  : io (gmap pystr pyval) :=
  match e with
  | HTTPException _ _ => call (raise e)
  | PyError _ msg =>
      emit (Log ERROR (py "Error: " ++ msg));;
      emit (DbUpdate "assessments"
              {[ py "assessment_id" := PStr assessment_id ]}
              (<[py "processed" := PBool true]>
                 {[ py "error" := PStr msg ]}));;
      call (raise (HTTPException 500 msg))
  end.

Definition analyze_voice (request : VoiceAnalysisRequest)
  : io (gmap pystr pyval) :=
  match authorize request with
  | inl (HTTPException status detail) =>
      call (raise (HTTPException status detail))
  | inl (PyError _ msg) =>
      (* the handler runs before [assessment_id] is assigned *)
      emit (Log ERROR (py "Error: " ++ msg));;
      call (raise (PyError "UnboundLocalError"
                     (unbound_local_text (py "assessment_id"))))
  | inr user =>
      let assessment_id := uuid4 in
      match process request user assessment_id with
      | (tr, inr response) => (tr, inr response)
      | (tr, inl e) =>
          let '(tr', r) := on_exception assessment_id e in (tr ++ tr', r)
      end
  end.

End Backend.

(** ** The frontend: JavaScript values *)

(** A JavaScript [number] is a binary64 float.  A property that is
    [undefined], [null] or missing is [None]: the operators below do not
    tell these apart. *)
Abbreviation jsnum := float.

(** Truthiness of a number: neither zero nor NaN. *)
Definition truthy_num (x : jsnum) : bool :=
  negb (PrimFloat.is_zero x || PrimFloat.is_nan x).

(** Truthiness of a string: not empty. *)
Definition truthy_str (s : string) : bool :=
  match s with EmptyString => false | String _ _ => true end.

(** [a ?? b]. *)
Definition nullish {A} (a b : option A) : option A :=
  match a with Some _ => a | None => b end.

(** [a || b] where [a] is a number, a string, or an array (an array is
    always truthy). *)
Definition or_num (a b : option jsnum) : option jsnum :=
  match a with
  | Some x => if truthy_num x then a else b
  | None => b
  end.

Definition or_str (a b : option string) : option string :=
  match a with
  | Some s => if truthy_str s then a else b
  | None => b
  end.

Definition or_arr {A} (a b : option (list A)) : option (list A) :=
  nullish a b.

(** ** [types/index.ts]: the shared interfaces *)

Module VoiceInsights.
Record t := {
  voice_personality : option string;
  headline : option string;
  key_insights : option (list string);
  what_went_well : option (list string);
  growth_opportunities : option (list string);
  tone_description : option string;
  overall_score : option jsnum;
  clarity_score : option jsnum;
  confidence_score : option jsnum;
  personalized_tips : option (list string)
}.
End VoiceInsights.

Module VoiceMetrics.
Record t := {
  speaking_pace : option jsnum;
  word_count : option jsnum;
  pause_effectiveness : option jsnum;
  vocal_variety : option string;
  energy_level : option string;
  clarity_rating : option string
}.
End VoiceMetrics.

Module VoiceAnalysis.
Record t := {
  insights : option VoiceInsights.t;
  metrics : option VoiceMetrics.t;
  archetype : option string;
  overall_score : option jsnum;
  clarity_score : option jsnum;
  confidence_score : option jsnum;
  tone : option string;
  strengths : option (list string);
  improvements : option (list string);
  pitch_avg : option jsnum;
  pitch_range : option string;
  speaking_pace : option jsnum;
  (** A [Record<string, number>], in the order of its keys. *)
  filler_words : option (list (string * jsnum));
  filler_count : option jsnum;
  word_count : option jsnum
}.
End VoiceAnalysis.

Module TrainingQuestion.
Record t := { question : string; answer : string; is_free : bool }.
End TrainingQuestion.

Module Assessment.
Record t := {
  assessment_id : string;
  transcription : string;
  analysis : option VoiceAnalysis.t;
  training_questions : option (list TrainingQuestion.t)
}.
End Assessment.

(** [x?.f] through an optional object. *)
Definition opt_chain {A B} (x : option A) (f : A -> option B) : option B :=
  match x with Some a => f a | None => None end.

(** ** [types/index.ts]: the helper functions *)

Module Types.

Definition getOverallScore (analysis : option VoiceAnalysis.t)
  : option jsnum :=
  match analysis with
  | None => None
  | Some a =>
      let score :=
        nullish (opt_chain (VoiceAnalysis.insights a) VoiceInsights.overall_score)
                (VoiceAnalysis.overall_score a) in
      match score with Some s => Some s | None => None end
  end.

Definition getArchetype (analysis : option VoiceAnalysis.t)
  : option string :=
  match analysis with
  | None => None
  | Some a =>
      nullish
        (nullish (opt_chain (VoiceAnalysis.insights a)
                    VoiceInsights.voice_personality)
                 (VoiceAnalysis.archetype a))
        None
  end.

Record DisplayValues := {
  overallScore : option jsnum;
  archetype : option string;
  tone : option string;
  clarityScore : option jsnum;
  confidenceScore : option jsnum;
  speakingPace : option jsnum;
  pitchAvg : option jsnum;
  pitchRange : option string;
  fillerWords : list (string * jsnum);
  fillerCount : jsnum;
  wordCount : option jsnum;
  strengths : list string;
  improvements : list string
}.

Definition extractAnalysisDisplayValues (analysis : option VoiceAnalysis.t)
  : DisplayValues :=
  match analysis with
  | None =>
      {| overallScore := None; archetype := None; tone := None;
         clarityScore := None; confidenceScore := None;
         speakingPace := None; pitchAvg := None; pitchRange := None;
         fillerWords := []; fillerCount := 0%float; wordCount := None;
         strengths := []; improvements := [] |}
  | Some a =>
      let i := VoiceAnalysis.insights a in
      let m := VoiceAnalysis.metrics a in
      {| overallScore :=
           nullish (opt_chain i VoiceInsights.overall_score)
                   (VoiceAnalysis.overall_score a);
         archetype :=
           nullish (opt_chain i VoiceInsights.voice_personality)
                   (VoiceAnalysis.archetype a);
         tone :=
           nullish (opt_chain i VoiceInsights.tone_description)
                   (VoiceAnalysis.tone a);
         clarityScore :=
           nullish (opt_chain i VoiceInsights.clarity_score)
                   (VoiceAnalysis.clarity_score a);
         confidenceScore :=
           nullish (opt_chain i VoiceInsights.confidence_score)
                   (VoiceAnalysis.confidence_score a);
         speakingPace :=
           nullish (opt_chain m VoiceMetrics.speaking_pace)
                   (VoiceAnalysis.speaking_pace a);
         pitchAvg := VoiceAnalysis.pitch_avg a;
         pitchRange := VoiceAnalysis.pitch_range a;
         fillerWords := default [] (VoiceAnalysis.filler_words a);
         fillerCount := default 0%float (VoiceAnalysis.filler_count a);
         wordCount :=
           nullish (opt_chain m VoiceMetrics.word_count)
                   (VoiceAnalysis.word_count a);
         strengths :=
           default [] (nullish (opt_chain i VoiceInsights.what_went_well)
                               (VoiceAnalysis.strengths a));
         improvements :=
           default [] (nullish (opt_chain i VoiceInsights.growth_opportunities)
                               (VoiceAnalysis.improvements a)) |}
  end.

End Types.

(** ** What a screen shows *)

(** The child of a [<Text>]: a number, a string, or a number followed by
    a fixed text (a template literal). *)
Inductive node :=
| Num (x : jsnum)
| Txt (s : string)
| NumTxt (x : jsnum) (suffix : string).

(** [{x ?? 'text'}]. *)
Definition num_or_text (x : option jsnum) (s : string) : node :=
  match x with Some v => Num v | None => Txt s end.

Definition str_or_text (x : option string) (s : string) : node :=
  match x with Some v => Txt v | None => Txt s end.

(** ** [results.tsx] *)

Module ResultsScreen.

(** The values taken from the analysis (lines 84 to 95). *)
Record Values := {
  overallScore : option jsnum;
  archetype : option string;
  tone : option string;
  clarityScore : option jsnum;
  confidenceScore : option jsnum;
  speakingPace : option jsnum;
  pitchAvg : option jsnum;
  pitchRange : option string;
  fillerWords : list (string * jsnum);
  fillerCount : jsnum;
  strengths : list string;
  improvements : list string
}.

Definition extract (analysis : option VoiceAnalysis.t) : Values :=
  let i := opt_chain analysis VoiceAnalysis.insights in
  let m := opt_chain analysis VoiceAnalysis.metrics in
  {| overallScore :=
       nullish (opt_chain i VoiceInsights.overall_score)
               (opt_chain analysis VoiceAnalysis.overall_score);
     archetype :=
       or_str (opt_chain i VoiceInsights.voice_personality)
              (or_str (opt_chain analysis VoiceAnalysis.archetype) None);
     tone :=
       or_str (opt_chain i VoiceInsights.tone_description)
              (or_str (opt_chain analysis VoiceAnalysis.tone) None);
     clarityScore :=
       nullish (opt_chain i VoiceInsights.clarity_score)
               (opt_chain analysis VoiceAnalysis.clarity_score);
     confidenceScore :=
       nullish (opt_chain i VoiceInsights.confidence_score)
               (opt_chain analysis VoiceAnalysis.confidence_score);
     speakingPace :=
       nullish (opt_chain m VoiceMetrics.speaking_pace)
               (opt_chain analysis VoiceAnalysis.speaking_pace);
     pitchAvg := opt_chain analysis VoiceAnalysis.pitch_avg;
     pitchRange :=
       or_str (opt_chain analysis VoiceAnalysis.pitch_range) None;
     fillerWords :=
       default [] (opt_chain analysis VoiceAnalysis.filler_words);
     fillerCount :=
       default 0%float (opt_chain analysis VoiceAnalysis.filler_count);
     strengths :=
       default [] (or_arr (opt_chain i VoiceInsights.what_went_well)
                          (opt_chain analysis VoiceAnalysis.strengths));
     improvements :=
       default [] (or_arr (opt_chain i VoiceInsights.growth_opportunities)
                          (opt_chain analysis VoiceAnalysis.improvements)) |}.

(** One row of the filler-word chart. *)
Record Bar := { word : string; width_percent : jsnum; count : jsnum }.

(** [(count / fillerCount) * 100]. *)
Definition bar_width (count fillerCount : jsnum) : jsnum :=
  PrimFloat.mul (PrimFloat.div count fillerCount) 100%float.

(** The result view, section by section; a section that is not rendered
    is [None]. *)
Record View := {
  scoreValue : node;
  archetypeValue : node;
  toneText : option string;
  clarityValue : node;
  confidenceValue : node;
  wpmValue : node;
  (** Average and range. *)
  pitchSection : option (node * node);
  (** The count in the title, and the bars. *)
  fillerSection : option (jsnum * list Bar);
  strengthsSection : option (list string);
  improvementsSection : option (list string);
  questionsSection : option (list TrainingQuestion.t)
}.

Definition nonempty {A} (l : list A) : option (list A) :=
  match l with [] => None | _ => Some l end.

Definition view (a : Assessment.t) : View :=
  let v := extract (Assessment.analysis a) in
  let questions := default [] (Assessment.training_questions a) in
  {| scoreValue := num_or_text (overallScore v) "N/A";
     archetypeValue := str_or_text (archetype v) "Analyzing...";
     toneText :=
       match tone v with
       | Some s => if truthy_str s then Some s else None
       | None => None
       end;
     clarityValue := num_or_text (clarityScore v) "N/A";
     confidenceValue := num_or_text (confidenceScore v) "N/A";
     wpmValue := num_or_text (speakingPace v) "N/A";
     pitchSection :=
       match pitchAvg v, pitchRange v with
       | None, None => None
       | avg, range =>
           Some (match avg with
                 | Some x => NumTxt x " Hz"
                 | None => Txt "N/A"
                 end,
                 str_or_text range "N/A")
       end;
     fillerSection :=
       if PrimFloat.ltb 0%float (fillerCount v)
       then Some (fillerCount v,
                  List.map (fun '(w, c) =>
                              {| word := w;
                                 width_percent := bar_width c (fillerCount v);
                                 count := c |})
                           (fillerWords v))
       else None;
     strengthsSection := nonempty (strengths v);
     improvementsSection := nonempty (improvements v);
     questionsSection := nonempty questions |}.

(** The component, by its state: loading, failed, or showing results. *)
Inductive Screen :=
| Loading
| Failed (message : string)
| Results (v : View).

Definition render (loading : bool) (error : option string)
  (assessment : option Assessment.t) : Screen :=
  if loading then Loading
  else match or_str error None, assessment with
       | Some e, _ => Failed e
       | None, None => Failed "No results found"
       | None, Some a => Results (view a)
       end.

End ResultsScreen.

(** ** [PersonalizedResults.tsx] (src/unnamed/part_001) *)

Module PersonalizedResults.

Record Values := {
  personality : string;
  headline : string;
  score : jsnum;
  keyInsights : list string;
  strengths : list string;
  growthOps : list string;
  tips : list string;
  freeQuestions : list TrainingQuestion.t;
  lockedQuestions : list TrainingQuestion.t
}.

Definition extract (a : Assessment.t) (analysis : VoiceAnalysis.t) : Values :=
  let insights := VoiceAnalysis.insights analysis in
  {| personality :=
       default "Balanced Communicator"%string
         (or_str (opt_chain insights VoiceInsights.voice_personality)
                 (or_str (VoiceAnalysis.archetype analysis) None));
     headline :=
       default "Your voice analysis is complete"%string
         (or_str (opt_chain insights VoiceInsights.headline) None);
     score :=
       default 75%float
         (or_num (opt_chain insights VoiceInsights.overall_score)
                 (or_num (VoiceAnalysis.overall_score analysis) None));
     keyInsights :=
       default [] (opt_chain insights VoiceInsights.key_insights);
     strengths :=
       default [] (or_arr (opt_chain insights VoiceInsights.what_went_well)
                          (VoiceAnalysis.strengths analysis));
     growthOps :=
       default [] (or_arr (opt_chain insights VoiceInsights.growth_opportunities)
                          (VoiceAnalysis.improvements analysis));
     tips :=
       default [] (opt_chain insights VoiceInsights.personalized_tips);
     freeQuestions :=
       default [] (List.filter TrainingQuestion.is_free
                     <$> Assessment.training_questions a);
     lockedQuestions :=
       default [] (List.filter (fun q => negb (TrainingQuestion.is_free q))
                     <$> Assessment.training_questions a) |}.

(** The key insights shown: the first three unless all are asked for;
    and the label of the button under them, when there is one. *)
Definition shown_insights (showAllInsights : bool) (keyInsights : list string)
  : list string :=
  if showAllInsights then keyInsights else take 3 keyInsights.

Definition more_count (keyInsights : list string) : option nat :=
  if (3 <? length keyInsights)%nat
  then Some (length keyInsights - 3)%nat else None.

(** The upgrade card: there are locked questions and the user is not
    premium. *)
Definition upgrade_shown (lockedQuestions : list TrainingQuestion.t)
  (user_isPremium : option bool) : bool :=
  (0 <? length lockedQuestions)%nat && negb (default false user_isPremium).

End PersonalizedResults.

(** ** The recording timer ([__tests__/api.test.ts], Recording Screen
    Logic) *)

Module Recorder.

(** Two minutes, in milliseconds. *)
Definition MAX_RECORDING_DURATION : Z := 120000.

(** The two variables of the timer.  The seconds counted are whole
    numbers, which a JavaScript number holds exactly. *)
Record t := { recordingTime : Z; shouldStop : bool }.

Definition init : t := {| recordingTime := 0; shouldStop := false |}.

(** [incrementTime], as the tests write it. *)
Definition incrementTime (r : t) : t :=
  let recordingTime' := recordingTime r + 1 in
  {| recordingTime := recordingTime';
     shouldStop := if 120 <=? recordingTime' then true else shouldStop r |}.

(** The tests' loop: [n] calls of [incrementTime]. *)
Fixpoint iterate (n : nat) (r : t) : t :=
  match n with O => r | S k => iterate k (incrementTime r) end.

(** Modelled from the spec: the interval timer of [recording.tsx], which
    is not under src.  From the tests' "should auto-stop at 120 seconds"
    and the flow's "max 2 minutes": a second is counted only while the
    recording has not been stopped. *)
Definition tick (r : t) : t :=
  if shouldStop r then r else incrementTime r.

Fixpoint run (seconds : nat) (r : t) : t :=
  match seconds with O => r | S k => run k (tick r) end.

(** The [recording_time] of the request sent after [seconds] seconds of
    recording. *)
Definition submitted_recording_time (seconds : nat) : Z :=
  recordingTime (run seconds init).

End Recorder.

(** ** Between the backend and the processing screen *)

(** The status of the HTTP response: FastAPI answers an [HTTPException]
    with its status and any other exception with 500. *)
Definition response_status {A} (r : result A) : Z :=
  match r with
  | inr _ => 200
  | inl (HTTPException status _) => status
  | inl (PyError _ _) => 500
  end.

(** The [catch] of the processing screen (VOICE_ANALYSIS_FLOW.md, Error
    Handling, Frontend), by [err.response?.status]. *)
Definition processing_error (status : option Z) : string :=
  match status with
  | Some 401 => "Not authenticated. Please log in."
  | Some 403 => "Usage limit reached. Upgrade to premium."
  | _ => "Processing failed. Try again."
  end.

(** ** The helpers of [__tests__/api.test.ts] *)

Module ApiTests.

(** [n.toString()] of a whole number. *)
Definition toString (n : Z) : string := NilZero.string_of_int (Z.to_int n).

(** [s.padStart(n, c)] for a one-character fill. *)
Definition padStart (n : nat) (c : ascii) (s : string) : string :=
  (string_of_list_ascii (repeat c (n - String.length s)) ++ s)%string.

(** [formatTime], on whole seconds: [Math.floor(seconds / 60)] and
    [seconds % 60], which takes the sign of [seconds]. *)
Definition formatTime (seconds : Z) : string :=
  let mins := seconds / 60 in
  let secs := Z.rem seconds 60 in
  (toString mins ++ ":" ++ padStart 2 "0" (toString secs))%string.

(** The [detail] of an error response, as far as [getErrorMessage]
    reads it: a string, or an object that may have a [message]. *)
Inductive Detail :=
| DetailString (s : string)
| DetailObject (message : option string).

Definition detail_message (detail : option Detail) : option string :=
  match detail with
  | Some (DetailObject m) => m
  | _ => None
  end.

(** [getErrorMessage(status, data)], by [data?.detail]. *)
Definition getErrorMessage (status : Z) (detail : option Detail) : string :=
  if status =? 401
  then "You are not authenticated. Please log in and try again."
  else if status =? 403
  then default
         "You have reached your usage limit. Please upgrade to premium."%string
         (or_str (detail_message detail) None)
  else if status =? 429
  then "Too many requests. Please wait and try again."
  else match detail with
       | Some (DetailString s) => s
       | _ =>
           default "Failed to process audio. Please try again."%string
             (or_str (detail_message detail) None)
       end.

(** [extractAnalysisValues], the helper the tests say mirrors the
    result screen. *)
Record AnalysisValues := {
  overallScore : jsnum;
  archetype : string;
  tone : string;
  clarityScore : jsnum;
  confidenceScore : jsnum;
  speakingPace : jsnum;
  strengths : list string;
  improvements : list string
}.

Definition extractAnalysisValues (analysis : option VoiceAnalysis.t)
  : AnalysisValues :=
  let i := opt_chain analysis VoiceAnalysis.insights in
  let m := opt_chain analysis VoiceAnalysis.metrics in
  {| overallScore :=
       default 75%float
         (or_num (opt_chain i VoiceInsights.overall_score)
            (or_num (opt_chain analysis VoiceAnalysis.overall_score) None));
     archetype :=
       default "Emerging Communicator"%string
         (or_str (opt_chain i VoiceInsights.voice_personality)
            (or_str (opt_chain analysis VoiceAnalysis.archetype) None));
     tone :=
       default "Balanced"%string
         (or_str (opt_chain i VoiceInsights.tone_description)
            (or_str (opt_chain analysis VoiceAnalysis.tone) None));
     clarityScore :=
       default 75%float
         (or_num (opt_chain i VoiceInsights.clarity_score)
            (or_num (opt_chain analysis VoiceAnalysis.clarity_score) None));
     confidenceScore :=
       default 70%float
         (or_num (opt_chain i VoiceInsights.confidence_score)
            (or_num (opt_chain analysis VoiceAnalysis.confidence_score) None));
     speakingPace :=
       default 0%float
         (or_num (opt_chain m VoiceMetrics.speaking_pace)
            (or_num (opt_chain analysis VoiceAnalysis.speaking_pace) None));
     strengths :=
       default [] (or_arr (opt_chain i VoiceInsights.what_went_well)
                          (opt_chain analysis VoiceAnalysis.strengths));
     improvements :=
       default [] (or_arr (opt_chain i VoiceInsights.growth_opportunities)
                          (opt_chain analysis VoiceAnalysis.improvements)) |}.

End ApiTests.

(** ** The rule engine of the specification *)

Module Pipeline.

(** Modelled from the spec: the ProsodyFeatures (spec 3).  The data of
    the acoustic pipeline is computed by [backend/feature_extractor.py],
    [backend/vad.py] and [backend/insights_generator.py];
    ACOUSTIC_ANALYSIS_IMPLEMENTATION.md names these modules, and none
    of them is under [src/]. *)
Record ProsodyFeatures := {
  pitch_mean : float; pitch_std : float;
  pitch_p5 : float; pitch_p50 : float; pitch_p95 : float;
  pitch_timeseries : list (float * option float)
}.

(** Modelled from the spec: the LoudnessFeatures (spec 3), computed by
    [backend/feature_extractor.py], which is not under [src/]. *)
Record LoudnessFeatures := {
  rms_mean : float; rms_std : float; dynamic_range_db : float;
  loudness_timeseries : list (float * float)
}.

(** Modelled from the spec: the QualityFeatures (spec 3), proxies
    computed by [backend/feature_extractor.py]. *)
Record QualityFeatures := {
  jitter_proxy : float; shimmer_proxy : float;
  harmonics_to_noise_proxy : float
}.

(** Modelled from the spec: the SpectralSummary (spec 3), computed by
    [backend/feature_extractor.py]. *)
Record SpectralSummary := {
  mfcc_vector : list float;
  spectral_centroid : float; spectral_rolloff : float;
  spectral_bandwidth : float
}.

(** Modelled from the spec: the four feature groups (spec 4.3), each
    of which may be unavailable on its own. *)
Record FeatureGroups := {
  prosody : option ProsodyFeatures;
  loudness : option LoudnessFeatures;
  quality : option QualityFeatures;
  spectral : option SpectralSummary
}.

(** Modelled from the spec: the TimingMetrics (spec 3), computed by
    [backend/vad.py], which is not under [src/]. *)
Record TimingMetrics := {
  speech_ratio : float; silence_ratio : float;
  pause_count : Z; mean_pause_duration : float;
  long_pause_count : Z
}.

(** Modelled from the spec: the Waveform (spec 3) that
    [backend/audio_utils.py] decodes. *)
Record Waveform := { samples : list float; sample_rate : Z }.

(** Modelled from the spec: what the InsightGenerator is given (spec
    4.5): "FeatureGroups x FillerWordCounts x TimingMetrics x
    speaking_pace". *)
Record Inputs := {
  features : FeatureGroups;
  fillers : gmap pystr Z;
  timing : TimingMetrics;
  speaking_pace : Z
}.

(** Modelled from the spec: the InsightRecord (spec 3). *)
Record InsightRecord := {
  voice_personality : pystr;
  headline : pystr;
  key_insights : list pystr;
  what_went_well : list pystr;
  growth_opportunities : list pystr;
  tone_description : pystr;
  overall_score : float;
  clarity_score : float;
  confidence_score : float;
  personalized_tips : list pystr
}.

(** Modelled from the spec: a banded rule (spec 4.5): a metric, which
    may be unavailable, the fragments below each threshold in rising
    order, and the fragment above the last. *)
Record Rule := {
  metric : Inputs -> option float;
  bands : list (float * pystr);
  top : pystr
}.

(** Modelled from the spec: a sentence of the record is a template
    filled with the fragments of its rules. *)
Record Template := {
  rules : list Rule;
  assemble : list pystr -> pystr
}.

(** Modelled from the spec: an archetype of the closed taxonomy, with
    the distance of a recording's feature signature from it. *)
Record Archetype := {
  label : pystr;
  distance : Inputs -> float
}.

(** Modelled from the spec: everything the spec leaves to "explicit,
    named configuration constants/tables" (spec 9): the extractors
    before the rule engine, the templates of the prose fields, the
    taxonomy in its fixed priority order, the normalized sub-scores
    with the weights of the three scores, and the prompt of the
    refiner. *)
Class Tables := {
  extract_features : Waveform -> FeatureGroups;
  segment : Waveform -> TimingMetrics;
  first_archetype : Archetype;
  other_archetypes : list Archetype;
  headline_template : Template;
  key_insight_templates : list Template;
  went_well_templates : list Template;
  growth_templates : list Template;
  tone_template : Template;
  tip_templates : list Template;
  subscores : list (Inputs -> float);
  overall_weights : list float;
  clarity_weights : list float;
  confidence_weights : list float;
  refiner_system : pystr;
  refiner_prompt : pystr -> Inputs -> pystr
}.

(** Modelled from the spec: "pitch_std < threshold1 -> steady tone
    phrasing; between threshold1 and threshold2 -> balanced variety;
    above threshold2 -> rich, expressive melody". *)
Fixpoint band_of (bands : list (float * pystr)) (top : pystr) (v : float)
  : pystr :=
  match bands with
  | [] => top
  | (threshold, fragment) :: rest =>
      if PrimFloat.ltb v threshold then fragment else band_of rest top v
  end.

(** Modelled from the spec: the fragment of a rule; a rule whose metric
    is unavailable gives none ("insight rules must branch on
    availability", spec 7). *)
Definition fragment_of (x : Inputs) (r : Rule) : option pystr :=
  band_of (bands r) (top r) <$> metric r x.

(** Modelled from the spec: "fragments are composed into the
    InsightRecord's prose fields by template assembly". *)
Definition fill (x : Inputs) (t : Template) : pystr :=
  assemble t (omap (fragment_of x) (rules t)).

(** Modelled from the spec: "nearest-match against a small fixed
    taxonomy ... Ties broken by a fixed priority ordering": a later
    archetype wins only when it is strictly nearer. *)
Fixpoint nearest (x : Inputs) (best : Archetype) (rest : list Archetype)
  : Archetype :=
  match rest with
  | [] => best
  | a :: rest' =>
      if PrimFloat.ltb (distance a x) (distance best x)
      then nearest x a rest'
      else nearest x best rest'
  end.

(** Modelled from the spec: "weighted combinations of normalized
    sub-scores ..., each clipped to [0,100]". *)
Definition weighted (weights : list float) (values : list float) : float :=
  fold_left (fun acc wv => PrimFloat.add acc (PrimFloat.mul (fst wv) (snd wv)))
    (combine weights values) 0%float.

(** Modelled from the spec: "each clipped to [0,100]". *)
Definition clip (v : float) : float :=
  if PrimFloat.ltb v 0%float then 0%float
  else if PrimFloat.ltb 100%float v then 100%float
  else v.

Section Rules.
Context `{Runtime} `{Services} `{Tables}.

(** Modelled from the spec: the InsightGenerator, "deterministic
    function: FeatureGroups x FillerWordCounts x TimingMetrics x
    speaking_pace -> InsightRecord" (spec 4.5). *)
Definition generate_insights (x : Inputs) : InsightRecord :=
  let values := List.map (fun s => s x) subscores in
  {| voice_personality := label (nearest x first_archetype other_archetypes);
     headline := fill x headline_template;
     key_insights := List.map (fill x) key_insight_templates;
     what_went_well := List.map (fill x) went_well_templates;
     growth_opportunities := List.map (fill x) growth_templates;
     tone_description := fill x tone_template;
     overall_score := clip (weighted overall_weights values);
     clarity_score := clip (weighted clarity_weights values);
     confidence_score := clip (weighted confidence_weights values);
     personalized_tips := List.map (fill x) tip_templates |}.

(** Modelled from the spec: a prose field of the model's answer is
    preferred when the answer has it, as a string; the rule-based field
    stands otherwise. *)
Definition text_field (g : gmap pystr pyval) (k : pystr) (rule_based : pystr)
  : pystr :=
  match g !! k with
  | Some (PStr s) => s
  | _ => rule_based
  end.

(** Modelled from the spec: a sentence is a string. *)
Definition as_text (v : pyval) : option pystr :=
  match v with PStr s => Some s | _ => None end.

(** Modelled from the spec: likewise a field that is a list of
    sentences. *)
Definition list_field (g : gmap pystr pyval) (k : pystr)
  (rule_based : list pystr) : list pystr :=
  match g !! k with
  | Some (PList l) => default rule_based (mapM as_text l)
  | _ => rule_based
  end.

(** Modelled from the spec: the merge of the NarrativeRefiner (spec
    4.6), "field-by-field, preferring the model's prose but never
    overriding the numeric scores". *)
Definition merge_refined (g : gmap pystr pyval) (r : InsightRecord)
  : InsightRecord :=
  {| voice_personality :=
       text_field g (py "voice_personality") (voice_personality r);
     headline := text_field g (py "headline") (headline r);
     key_insights := list_field g (py "key_insights") (key_insights r);
     what_went_well := list_field g (py "what_went_well") (what_went_well r);
     growth_opportunities :=
       list_field g (py "growth_opportunities") (growth_opportunities r);
     tone_description :=
       text_field g (py "tone_description") (tone_description r);
     overall_score := overall_score r;
     clarity_score := clarity_score r;
     confidence_score := confidence_score r;
     personalized_tips :=
       list_field g (py "personalized_tips") (personalized_tips r) |}.

(** [str(e)]. *)
Definition text_of_exn (e : exn) : pystr :=
  match e with HTTPException _ detail => detail | PyError _ msg => msg end.

(** Modelled from the spec: the NarrativeRefiner (spec 4.6).  "On any
    failure (timeout, malformed response, non-JSON output), the
    rule-based InsightRecord is returned unmodified and the failure is
    recorded as a warning, not an error". *)
Definition refine (transcript : pystr) (x : Inputs) (r : InsightRecord)
  : io InsightRecord :=
  match chat_completions_create refiner_system (refiner_prompt transcript x)
  with
  | inl e => emit (Log WARNING (text_of_exn e));; mret r
  | inr content =>
      match json_loads content with
      | inl e => emit (Log WARNING (text_of_exn e));; mret r
      | inr (PDict g) => mret (merge_refined g r)
      | inr v => emit (Log WARNING (text_of_exn (not_a_mapping v)));; mret r
      end
  end.

(** Modelled from the spec: what reaches the rule engine (spec 2).  The
    LexicalAnalyzer is the code of VOICE_ANALYSIS_FLOW.md:
    [detect_filler_words] and the pace of [analyze_transcription]. *)
Definition inputs_of (audio : Waveform) (transcript : pystr) (pace : Z)
  : Inputs :=
  {| features := extract_features audio;
     fillers := detect_filler_words transcript;
     timing := segment audio;
     speaking_pace := pace |}.

(** Modelled from the spec: the pipeline up to the InsightRecord (spec
    2 and 6), with the refiner as its optional last step. *)
Definition analyze (refiner_enabled : bool) (audio : Waveform)
  (transcript : pystr) (recording_duration_seconds : Z)
  : io InsightRecord :=
  pace ← call (speaking_pace_of (word_count_of transcript)
                 recording_duration_seconds);
  let x := inputs_of audio transcript pace in
  let r := generate_insights x in
  if refiner_enabled then refine transcript x r else mret r.

End Rules.

End Pipeline.

(* ===================================================================== *)
(** * Part II.  Lemmas and theorems                                      *)
(* ===================================================================== *)

(** ** The recording timer *)

Section RecorderFacts.
Import Recorder.

(** A state the timer can be in: the stop flag says whether two minutes
    have been counted, and no more than that has been. *)
Definition timer_ok (r : t) : Prop :=
  0 <= recordingTime r <= 120 /\
  shouldStop r = (120 <=? recordingTime r).

Lemma timer_ok_init : timer_ok init.
Proof. split; [simpl; lia | reflexivity]. Qed.

Lemma tick_time (r : t) :
  timer_ok r -> recordingTime (tick r) = Z.min (recordingTime r + 1) 120.
Proof.
  intros [Hr Hs]. unfold tick. rewrite Hs.
  destruct (Z.leb_spec 120 (recordingTime r)); simpl; lia.
Qed.

Lemma tick_ok (r : t) : timer_ok r -> timer_ok (tick r).
Proof.
  destruct r as [rt ss]. unfold timer_ok, tick. simpl.
  intros [Hr ->].
  destruct (Z.leb_spec 120 rt) as [Hge | Hlt]; simpl.
  - split; [lia |]. symmetry. apply Z.leb_le. lia.
  - split; [lia |].
    destruct (Z.leb_spec 120 (rt + 1)); reflexivity.
Qed.

Lemma run_time (n : nat) (r : t) :
  timer_ok r ->
  timer_ok (run n r) /\
  recordingTime (run n r) = Z.min (recordingTime r + Z.of_nat n) 120.
Proof.
  revert r. induction n as [| n IH]; intros r Hok.
  - split; [exact Hok |]. destruct Hok as [Hr _]. simpl. lia.
  - cbn [run]. destruct (IH (tick r) (tick_ok r Hok)) as [Hok' Ht].
    split; [exact Hok' |]. rewrite Ht, (tick_time r Hok).
    destruct Hok as [Hr _]. lia.
Qed.

Lemma iterate_time (n : nat) (r : t) :
  recordingTime (iterate n r) = recordingTime r + Z.of_nat n.
Proof.
  revert r. induction n as [| n IH]; intros r.
  - simpl. lia.
  - cbn [iterate]. rewrite IH. simpl. lia.
Qed.

(** C9.  The recorder stops counting at 120 seconds: after any number of
    seconds of recording the time sent with the analyze request is the
    seconds elapsed capped at 120, so it never exceeds 120, and the stop
    flag is raised exactly from the 120th second on. *)
Theorem recording_time_at_most_120 (seconds : nat) :
  submitted_recording_time seconds = Z.min (Z.of_nat seconds) 120 /\
  submitted_recording_time seconds <= 120 /\
  (shouldStop (run seconds init) = true <-> 120 <= Z.of_nat seconds) /\
  MAX_RECORDING_DURATION / 1000 = 120.
Proof.
  destruct (run_time seconds init timer_ok_init) as [[Hr Hs] Ht].
  unfold submitted_recording_time. simpl in Ht.
  repeat split; try lia; try reflexivity.
  - rewrite Hs. intros Hle%Z.leb_le. lia.
  - intros Hle. rewrite Hs. apply Z.leb_le. lia.
Qed.

End RecorderFacts.

(** ** The result screens *)

Section ScreenFacts.

(** The analysis of an assessment whose backend run stored nothing. *)
Definition empty_analysis : VoiceAnalysis.t :=
  {| VoiceAnalysis.insights := None; VoiceAnalysis.metrics := None;
     VoiceAnalysis.archetype := None; VoiceAnalysis.overall_score := None;
     VoiceAnalysis.clarity_score := None;
     VoiceAnalysis.confidence_score := None; VoiceAnalysis.tone := None;
     VoiceAnalysis.strengths := None; VoiceAnalysis.improvements := None;
     VoiceAnalysis.pitch_avg := None; VoiceAnalysis.pitch_range := None;
     VoiceAnalysis.speaking_pace := None; VoiceAnalysis.filler_words := None;
     VoiceAnalysis.filler_count := None; VoiceAnalysis.word_count := None |}.

Definition assessment_of (analysis : VoiceAnalysis.t) : Assessment.t :=
  {| Assessment.assessment_id := "a1"; Assessment.transcription := "";
     Assessment.analysis := Some analysis;
     Assessment.training_questions := None |}.

(** The empty analysis but for a legacy overall score. *)
Definition scored_analysis (x : jsnum) : VoiceAnalysis.t :=
  {| VoiceAnalysis.insights := None; VoiceAnalysis.metrics := None;
     VoiceAnalysis.archetype := None; VoiceAnalysis.overall_score := Some x;
     VoiceAnalysis.clarity_score := None;
     VoiceAnalysis.confidence_score := None; VoiceAnalysis.tone := None;
     VoiceAnalysis.strengths := None; VoiceAnalysis.improvements := None;
     VoiceAnalysis.pitch_avg := None; VoiceAnalysis.pitch_range := None;
     VoiceAnalysis.speaking_pace := None; VoiceAnalysis.filler_words := None;
     VoiceAnalysis.filler_count := None; VoiceAnalysis.word_count := None |}.

(** C1 (the code departs from it).  On an analysis with no overall score
    at all, [PersonalizedResults.tsx] shows the number 75, where
    [results.tsx] shows "N/A" and [getOverallScore] returns null; and it
    shows 75 as well for a measured score of 0. *)
Theorem PersonalizedResults_fabricates_75 :
  PersonalizedResults.score
    (PersonalizedResults.extract (assessment_of empty_analysis) empty_analysis)
  = 75%float /\
  ResultsScreen.scoreValue (ResultsScreen.view (assessment_of empty_analysis))
  = Txt "N/A" /\
  Types.getOverallScore (Some empty_analysis) = None /\
  PersonalizedResults.score
    (PersonalizedResults.extract (assessment_of (scored_analysis 0%float))
       (scored_analysis 0%float))
  = 75%float.
Proof. repeat split; reflexivity. Qed.

(** C10.  The filler-word section of [results.tsx] is rendered exactly
    when [fillerCount > 0]; every bar width it computes is
    [(count / fillerCount) * 100] with that strictly positive
    [fillerCount] as the denominator, and when the section is not
    rendered no width is computed at all. *)
Theorem filler_bar_denominator_positive (a : Assessment.t) :
  let v := ResultsScreen.extract (Assessment.analysis a) in
  match ResultsScreen.fillerSection (ResultsScreen.view a) with
  | Some (n, bars) =>
      n = ResultsScreen.fillerCount v /\
      PrimFloat.ltb 0%float n = true /\
      bars = List.map (fun '(w, c) =>
                         {| ResultsScreen.word := w;
                            ResultsScreen.width_percent :=
                              PrimFloat.mul (PrimFloat.div c n) 100%float;
                            ResultsScreen.count := c |})
                      (ResultsScreen.fillerWords v)
  | None => PrimFloat.ltb 0%float (ResultsScreen.fillerCount v) = false
  end.
Proof.
  intros v. unfold ResultsScreen.view. cbn [ResultsScreen.fillerSection].
  fold v. destruct (PrimFloat.ltb 0%float (ResultsScreen.fillerCount v)) eqn:Hpos.
  - split; [reflexivity |]. split; [exact Hpos | reflexivity].
  - reflexivity.
Qed.

End ScreenFacts.

(** ** Sample worlds *)

(** A runtime whose tables know nothing beyond ASCII, and which words
    its errors as CPython 3.11 does. *)
Definition ascii_runtime : Runtime :=
  {| uni_isalnum := fun _ => false;
     uni_isspace := fun _ => false;
     uni_lower := fun s => s;
     str_index_text := py "string indices must be integers, not 'str'";
     dict_slice_error :=
       fun _ => ("TypeError"%string, py "unhashable type: 'slice'");
     unbound_local_text :=
       fun x => py "cannot access local variable '" ++ x ++
                py "' where it is not associated with a value" |}.

Definition sample_user : User.t :=
  {| User.id := py "u1"; User.isPremium := None |}.

(** A world with one free user and no assessment yet, in which the four
    outside calls of the analysis answer as given. *)
Definition sample_services (decoded : result (list N))
  (transcribed : result pystr) (chat : result pystr)
  (parsed : result pyval) : Services :=
  {| SECRET_KEY := py "secret";
     jwt_decode := fun _ _ => inr {[ py "user_id" := PStr (py "u1") ]};
     users_find_one := fun _ => Some sample_user;
     count_this_month := fun _ => 0;
     count_total := fun _ => 0;
     uuid4 := py "a1";
     gettempdir := py "/tmp";
     utcnow := fun _ => PNone;
     b64decode := fun _ => decoded;
     transcriptions_create := fun _ => transcribed;
     chat_completions_create := fun _ _ => chat;
     json_loads := fun _ => parsed;
     format_value := fun _ => [] |}.

Definition sample_request (seconds : Z) : VoiceAnalysisRequest :=
  {| authorization := Some (py "Bearer tok");
     audio_base64 := py "AAAA";
     user_id := PStr (py "u1");
     recording_mode := py "free";
     recording_time := seconds |}.

(** What a model might answer: an object with the given overall score. *)
Definition reply_object (score : Z) : gmap pystr pyval :=
  <[py "overall_score" := PInt score]>
    (<[py "archetype" := PStr (py "Confident Presenter")]>
       (<[py "improvements" := PList []]>
          {[ py "questions" := PList [] ]})).

Definition reply_with_score (score : Z) : pyval := PDict (reply_object score).

(** ** The merge of the model's answer *)

Section MergeFacts.

(** The fields the backend computes itself. *)
Definition computed_fields (speaking_pace : Z) (filler_words : gmap pystr Z)
  (word_count : Z) : gmap pystr pyval :=
  merge_analysis ∅ speaking_pace filler_words word_count.

Lemma merge_analysis_union (g : gmap pystr pyval) sp fw wc :
  merge_analysis g sp fw wc = computed_fields sp fw wc ∪ g.
Proof.
  unfold computed_fields, merge_analysis.
  rewrite <- !insert_union_l. by rewrite (left_id_L ∅ (∪)).
Qed.

Lemma computed_fields_lookup sp fw wc (k : pystr) :
  computed_fields sp fw wc !! k =
    if decide (k = py "word_count") then Some (PInt wc)
    else if decide (k = py "filler_words") then Some (PDict (PInt <$> fw))
    else if decide (k = py "speaking_pace") then Some (PInt sp)
    else None.
Proof.
  unfold computed_fields, merge_analysis.
  repeat case_decide; subst; simplify_map_eq; try done.
Qed.

Lemma merge_analysis_lookup (g : gmap pystr pyval) sp fw wc (k : pystr) :
  merge_analysis g sp fw wc !! k =
    match computed_fields sp fw wc !! k with
    | Some v => Some v
    | None => g !! k
    end.
Proof.
  rewrite merge_analysis_union, lookup_union.
  destruct (computed_fields sp fw wc !! k), (g !! k); reflexivity.
Qed.

(** The scores pass through the merge. *)
Lemma merge_analysis_scores (g : gmap pystr pyval) sp fw wc :
  merge_analysis g sp fw wc !! py "overall_score" = g !! py "overall_score" /\
  merge_analysis g sp fw wc !! py "clarity_score" = g !! py "clarity_score" /\
  merge_analysis g sp fw wc !! py "confidence_score"
  = g !! py "confidence_score".
Proof.
  rewrite !merge_analysis_lookup, !computed_fields_lookup.
  repeat split; reflexivity.
Qed.

Lemma merge_analysis_computed (g : gmap pystr pyval) sp fw wc :
  merge_analysis g sp fw wc !! py "speaking_pace" = Some (PInt sp) /\
  merge_analysis g sp fw wc !! py "filler_words"
  = Some (PDict (PInt <$> fw)) /\
  merge_analysis g sp fw wc !! py "word_count" = Some (PInt wc).
Proof.
  rewrite !merge_analysis_lookup, !computed_fields_lookup.
  repeat split; reflexivity.
Qed.

(** C2, as the code has it.  The merge keeps the three fields the
    backend computed whatever the model answered, and takes every other
    field from the model: the three scores of the result are the
    model's. *)
Theorem merge_keeps_computed_and_takes_model_scores
  (g : gmap pystr pyval) (sp : Z) (fw : gmap pystr Z) (wc : Z) :
  let merged := merge_analysis g sp fw wc in
  merged = computed_fields sp fw wc ∪ g /\
  merged !! py "speaking_pace" = Some (PInt sp) /\
  merged !! py "filler_words" = Some (PDict (PInt <$> fw)) /\
  merged !! py "word_count" = Some (PInt wc) /\
  merged !! py "overall_score" = g !! py "overall_score" /\
  merged !! py "clarity_score" = g !! py "clarity_score" /\
  merged !! py "confidence_score" = g !! py "confidence_score".
Proof.
  intros merged. subst merged.
  split; [apply merge_analysis_union |].
  rewrite !merge_analysis_lookup, !computed_fields_lookup.
  repeat split; reflexivity.
Qed.

(** C2, as the spec states it, fails: the record computed by the backend
    has no overall score, and after the merge the score is the one the
    model sent; two answers of the model give two scores. *)
Lemma merge_changes_scores :
  computed_fields 150 ∅ 150 !! py "overall_score" = None /\
  merge_analysis {[ py "overall_score" := PInt 10 ]} 150 ∅ 150
    !! py "overall_score" = Some (PInt 10) /\
  merge_analysis {[ py "overall_score" := PInt 99 ]} 150 ∅ 150
    !! py "overall_score" = Some (PInt 99).
Proof. repeat split; vm_compute; reflexivity. Qed.

End MergeFacts.

(** ** The analysis of a transcription *)

(** A score as the spec wants it: a number within [0,100]. *)
Definition score_in_range (v : pyval) : bool :=
  match v with
  | PInt z => (0 <=? z) && (z <=? 100)
  | PFloat f => PrimFloat.leb 0%float f && PrimFloat.leb f 100%float
  | _ => false
  end.

(** The two laws of a call that raises or returns. *)
Lemma result_bind_inr {A B} (f : A -> result B) (x : A) :
  mbind f (inr x) = f x.
Proof. reflexivity. Qed.

Lemma result_bind_inl {A B} (f : A -> result B) (e : exn) :
  mbind f (inl e) = inl e.
Proof. reflexivity. Qed.

Section AnalysisFacts.
Context `{Runtime} `{Services}.

(** What a returning [analyze_transcription] went through. *)
Lemma analyze_transcription_inv (text : pystr) (seconds : Z)
  (analysis : gmap pystr pyval) :
  analyze_transcription text seconds = inr analysis ->
  exists sp content g,
    speaking_pace_of (word_count_of text) seconds = inr sp /\
    chat_completions_create (py "You are an expert voice coach.")
      (analysis_prompt text sp) = inr content /\
    json_loads content = inr (PDict g) /\
    analysis = merge_analysis g sp (detect_filler_words text)
                 (word_count_of text).
Proof.
  unfold analyze_transcription. intros Hrun.
  destruct (speaking_pace_of (word_count_of text) seconds)
    as [e | sp] eqn:Hsp; [discriminate |].
  rewrite result_bind_inr in Hrun.
  destruct (chat_completions_create _ (analysis_prompt text sp))
    as [e | content] eqn:Hchat; [discriminate |].
  rewrite result_bind_inr in Hrun.
  destruct (json_loads content) as [e | parsed] eqn:Hjson; [discriminate |].
  rewrite result_bind_inr in Hrun.
  destruct parsed; try discriminate.
  exists sp, content, d. repeat split; try assumption.
  injection Hrun as <-. reflexivity.
Qed.

(** And what it returns when every step does. *)
Lemma analyze_transcription_returns (text : pystr) (seconds sp : Z)
  (content : pystr) (g : gmap pystr pyval) :
  speaking_pace_of (word_count_of text) seconds = inr sp ->
  chat_completions_create (py "You are an expert voice coach.")
    (analysis_prompt text sp) = inr content ->
  json_loads content = inr (PDict g) ->
  analyze_transcription text seconds =
    inr (merge_analysis g sp (detect_filler_words text) (word_count_of text)).
Proof.
  intros Hsp Hchat Hjson. unfold analyze_transcription.
  rewrite Hsp, result_bind_inr, Hchat, result_bind_inr, Hjson,
    result_bind_inr.
  reflexivity.
Qed.

(** A failure of the model's step is a failure of the analysis. *)
Lemma analyze_transcription_chat_raises (text : pystr) (seconds sp : Z)
  (e : exn) :
  speaking_pace_of (word_count_of text) seconds = inr sp ->
  chat_completions_create (py "You are an expert voice coach.")
    (analysis_prompt text sp) = inl e ->
  analyze_transcription text seconds = inl e.
Proof.
  intros Hsp Hchat. unfold analyze_transcription.
  rewrite Hsp, result_bind_inr, Hchat. reflexivity.
Qed.

Lemma analyze_transcription_json_raises (text : pystr) (seconds sp : Z)
  (content : pystr) (e : exn) :
  speaking_pace_of (word_count_of text) seconds = inr sp ->
  chat_completions_create (py "You are an expert voice coach.")
    (analysis_prompt text sp) = inr content ->
  json_loads content = inl e ->
  analyze_transcription text seconds = inl e.
Proof.
  intros Hsp Hchat Hjson. unfold analyze_transcription.
  rewrite Hsp, result_bind_inr, Hchat, result_bind_inr, Hjson. reflexivity.
Qed.

(** C6, as the code has it.  The three scores of a returned analysis are
    the values of the model's JSON answer, passed on without clipping:
    each is present, and within [0,100], exactly when the model's is. *)
Theorem analysis_scores_are_the_models (text : pystr) (seconds : Z)
  (analysis : gmap pystr pyval) :
  analyze_transcription text seconds = inr analysis ->
  exists sp content g,
    chat_completions_create (py "You are an expert voice coach.")
      (analysis_prompt text sp) = inr content /\
    json_loads content = inr (PDict g) /\
    analysis !! py "overall_score" = g !! py "overall_score" /\
    analysis !! py "clarity_score" = g !! py "clarity_score" /\
    analysis !! py "confidence_score" = g !! py "confidence_score" /\
    (forall k, k ∈ [py "overall_score"; py "clarity_score";
                    py "confidence_score"] ->
       score_in_range <$> analysis !! k = score_in_range <$> g !! k).
Proof.
  intros (sp & content & g & Hsp & Hchat & Hjson & ->)%analyze_transcription_inv.
  exists sp, content, g.
  pose proof (merge_analysis_scores g sp
                (detect_filler_words text) (word_count_of text))
    as (Ho & Hc & Hf).
  repeat split; try assumption.
  intros k Hk. repeat (apply elem_of_cons in Hk as [-> | Hk]);
    [by rewrite Ho | by rewrite Hc | by rewrite Hf |].
  by apply elem_of_nil in Hk.
Qed.

End AnalysisFacts.

(** A world in which the model scores 80, and the analysis of the
    three-word transcript "so it goes", spoken in three seconds, in it. *)
Definition world80 : Services :=
  sample_services (inr []) (inr []) (inr []) (inr (reply_with_score 80)).

Definition analysis80 : gmap pystr pyval :=
  merge_analysis (reply_object 80) 60
    (@detect_filler_words ascii_runtime (py "so it goes"))
    (@word_count_of ascii_runtime (py "so it goes")).

Lemma analysis80_run :
  @analyze_transcription ascii_runtime world80 (py "so it goes") 3
  = inr analysis80.
Proof.
  apply (@analyze_transcription_returns ascii_runtime world80
           (py "so it goes") 3 60 [] (reply_object 80));
    [vm_compute; reflexivity | reflexivity | reflexivity].
Defined.

(** The analysis of a silent minute, for any answer of the model. *)
Definition silent_analysis (g : gmap pystr pyval) : gmap pystr pyval :=
  merge_analysis g 0 (@detect_filler_words ascii_runtime [])
    (@word_count_of ascii_runtime []).

Lemma silent_analysis_run (g : gmap pystr pyval) :
  @analyze_transcription ascii_runtime
    (sample_services (inr []) (inr []) (inr []) (inr (PDict g))) [] 60
  = inr (silent_analysis g).
Proof.
  apply (@analyze_transcription_returns ascii_runtime
           (sample_services (inr []) (inr []) (inr []) (inr (PDict g)))
           [] 60 0 [] g);
    [vm_compute; reflexivity | reflexivity | reflexivity].
Qed.

(** The sample request with an empty buffer: [base64.b64decode("")] is
    the empty [bytes]. *)
Definition empty_audio_request (seconds : Z) : VoiceAnalysisRequest :=
  {| authorization := Some (py "Bearer tok");
     audio_base64 := [];
     user_id := PStr (py "u1");
     recording_mode := py "free";
     recording_time := seconds |}.

(** C6 witness: the run in [world80]. *)
Lemma analysis_scores_are_the_models_witness :
  exists sp content g,
    @chat_completions_create world80 (py "You are an expert voice coach.")
      (@analysis_prompt world80 (py "so it goes") sp) = inr content /\
    @json_loads world80 content = inr (PDict g) /\
    analysis80 !! py "overall_score" = g !! py "overall_score" /\
    analysis80 !! py "clarity_score" = g !! py "clarity_score" /\
    analysis80 !! py "confidence_score" = g !! py "confidence_score" /\
    (forall k, k ∈ [py "overall_score"; py "clarity_score";
                    py "confidence_score"] ->
       score_in_range <$> analysis80 !! k = score_in_range <$> g !! k).
Proof.
  exact (@analysis_scores_are_the_models ascii_runtime world80
           (py "so it goes") 3 analysis80 analysis80_run).
Defined.

(** C6, as the spec states it, fails: on an empty transcript the model
    may answer an overall score of 150, and 150 is what the analysis
    holds. *)
Lemma analysis_score_out_of_range :
  exists analysis,
    @analyze_transcription ascii_runtime
      (sample_services (inr []) (inr []) (inr []) (inr (reply_with_score 150)))
      [] 60 = inr analysis /\
    analysis !! py "overall_score" = Some (PInt 150) /\
    score_in_range (PInt 150) = false.
Proof.
  exists (merge_analysis (reply_object 150) 0
            (@detect_filler_words ascii_runtime [])
            (@word_count_of ascii_runtime [])).
  split.
  - apply (@analyze_transcription_returns ascii_runtime
             (sample_services (inr []) (inr []) (inr [])
                (inr (reply_with_score 150)))
             [] 60 0 [] (reply_object 150));
      [vm_compute; reflexivity | reflexivity | reflexivity].
  - split; vm_compute; reflexivity.
Qed.

(** ** The endpoint *)

(** The log entries among the events. *)
Definition logs (tr : list event) : list (log_level * pystr) :=
  omap (fun ev => match ev with Log l m => Some (l, m) | _ => None end) tr.

(** The database writes among the events. *)
Definition db_writes (tr : list event) : list event :=
  List.filter (fun ev => match ev with
                         | DbInsert _ _ | DbUpdate _ _ _ => true
                         | _ => false
                         end) tr.

(** The write that records a failure on the assessment. *)
Definition error_update (assessment_id msg : pystr) : event :=
  DbUpdate "assessments"
    {[ py "assessment_id" := PStr assessment_id ]}
    (<[py "processed" := PBool true]> {[ py "error" := PStr msg ]}).

Section EndpointFacts.
Context `{Runtime} `{Services}.

(** The ways the model's step can fail: the call raises (a timeout), the
    answer is not JSON, or it is JSON but not an object, which
    [{**gpt_analysis}] refuses by the name of its type. *)
Inductive refinement_fails (text : pystr) (seconds : Z)
  : string -> pystr -> Prop :=
| chat_raises sp cls msg :
    speaking_pace_of (word_count_of text) seconds = inr sp ->
    chat_completions_create (py "You are an expert voice coach.")
      (analysis_prompt text sp) = inl (PyError cls msg) ->
    refinement_fails text seconds cls msg
| json_raises sp content cls msg :
    speaking_pace_of (word_count_of text) seconds = inr sp ->
    chat_completions_create (py "You are an expert voice coach.")
      (analysis_prompt text sp) = inr content ->
    json_loads content = inl (PyError cls msg) ->
    refinement_fails text seconds cls msg
| not_an_object sp content v :
    speaking_pace_of (word_count_of text) seconds = inr sp ->
    chat_completions_create (py "You are an expert voice coach.")
      (analysis_prompt text sp) = inr content ->
    json_loads content = inr v ->
    (forall g, v <> PDict g) ->
    refinement_fails text seconds "TypeError"
      (py "'" ++ type_name v ++ py "' object is not a mapping").

Lemma refinement_fails_analysis (text : pystr) (seconds : Z) cls msg :
  refinement_fails text seconds cls msg ->
  analyze_transcription text seconds = inl (PyError cls msg).
Proof.
  intros [sp cls' msg' Hsp Hchat | sp content cls' msg' Hsp Hchat Hjson
         | sp content v Hsp Hchat Hjson Hv].
  - eauto using analyze_transcription_chat_raises.
  - eauto using analyze_transcription_json_raises.
  - unfold analyze_transcription.
    rewrite Hsp, result_bind_inr, Hchat, result_bind_inr, Hjson,
      result_bind_inr.
    destruct v; try reflexivity. by destruct (Hv d).
Qed.

(** How [process] ends when one of its calls raises. *)
Lemma process_decode_raises request user aid (e : exn) :
  b64decode (audio_base64 request) = inl e ->
  exists tr, process request user aid = (tr, inl e) /\ logs tr = [].
Proof.
  intros Hdec. unfold process, call. rewrite Hdec.
  eexists. split; reflexivity.
Qed.

Lemma process_transcribe_raises request user aid bytes (e : exn) :
  b64decode (audio_base64 request) = inr bytes ->
  transcriptions_create bytes = inl e ->
  exists tr, process request user aid = (tr, inl e) /\ logs tr = [].
Proof.
  intros Hdec Htr. unfold process, call, emit, mbind, io_bind.
  rewrite Hdec. cbv beta iota zeta. rewrite Htr.
  eexists. split; reflexivity.
Qed.

Lemma process_analysis_raises request user aid bytes transcription (e : exn) :
  b64decode (audio_base64 request) = inr bytes ->
  transcriptions_create bytes = inr transcription ->
  analyze_transcription transcription (recording_time request) = inl e ->
  exists tr, process request user aid = (tr, inl e) /\ logs tr = [].
Proof.
  intros Hdec Htr Han. unfold process, call, emit, mbind, io_bind.
  rewrite Hdec. cbv beta iota zeta. rewrite Htr. cbv beta iota zeta.
  rewrite Han.
  eexists. split; reflexivity.
Qed.

(** From a raising [process] to the answer of the endpoint. *)
Lemma analyze_voice_process_raises request user tr cls msg :
  authorize request = inr user ->
  process request user uuid4 = (tr, inl (PyError cls msg)) ->
  analyze_voice request =
    (tr ++ [Log ERROR (py "Error: " ++ msg); error_update uuid4 msg],
     inl (HTTPException 500 msg)).
Proof.
  intros Hauth Hproc. unfold analyze_voice. rewrite Hauth, Hproc.
  reflexivity.
Qed.

Lemma logs_app tr1 tr2 : logs (tr1 ++ tr2) = logs tr1 ++ logs tr2.
Proof. unfold logs. apply omap_app. Qed.

(** C3 (the code departs from it).  The repository's guides promise
    that the analysis falls back to rule-based insights when the model
    fails; the endpoint quoted in VOICE_ANALYSIS_FLOW.md has no fallback.
    When the model's step fails, the run fails: the endpoint logs the
    failure at level ERROR (its only log entry), writes the error text on
    the assessment as its last act, and raises HTTP 500 with that text as
    detail. *)
Theorem refinement_failure_fails_the_run request user bytes transcription
  cls msg :
  authorize request = inr user ->
  b64decode (audio_base64 request) = inr bytes ->
  transcriptions_create bytes = inr transcription ->
  refinement_fails transcription (recording_time request) cls msg ->
  exists tr,
    analyze_voice request = (tr, inl (HTTPException 500 msg)) /\
    logs tr = [(ERROR, py "Error: " ++ msg)] /\
    last tr = Some (error_update uuid4 msg).
Proof.
  intros Hauth Hdec Htr Hfail%refinement_fails_analysis.
  destruct (process_analysis_raises request user uuid4 bytes transcription
              _ Hdec Htr Hfail) as (tr & Hproc & Hlogs).
  eexists. split; [eauto using analyze_voice_process_raises |].
  split.
  - rewrite logs_app, Hlogs. reflexivity.
  - apply last_Some. exists (tr ++ [Log ERROR (py "Error: " ++ msg)]).
    by rewrite <- app_assoc.
Qed.

(** A run in which every step succeeds. *)
Lemma analyze_voice_completes request user bytes transcription analysis
  questions :
  authorize request = inr user ->
  b64decode (audio_base64 request) = inr bytes ->
  transcriptions_create bytes = inr transcription ->
  analyze_transcription transcription (recording_time request)
  = inr analysis ->
  generate_training_questions analysis transcription = inr questions ->
  exists tr response,
    analyze_voice request = (tr, inr response) /\
    logs tr = [] /\
    FileWrite (gettempdir ++ py "/" ++ uuid4 ++ py ".m4a") bytes ∈ tr /\
    response !! py "status" = Some (PStr (py "completed")).
Proof.
  intros Hauth Hdec Htr Han Hq.
  unfold analyze_voice. rewrite Hauth.
  unfold process, call, emit, mbind, io_bind.
  rewrite Hdec. cbv beta iota zeta. rewrite Htr. cbv beta iota zeta.
  rewrite Han. cbv beta iota zeta. rewrite Hq. cbv beta iota zeta.
  do 2 eexists. split; [reflexivity |]. split; [reflexivity |].
  split; [| by simplify_map_eq].
  apply list_elem_of_In. right. left. reflexivity.
Qed.

(** C7, as the code has it.  The endpoint has no [DecodeError] and no
    [EmptyAudioError].  When decoding the buffer or transcribing the
    audio raises, whatever the class of the exception, the endpoint
    raises HTTP 500 with the exception's text as detail, after logging
    it at level ERROR.  A buffer that decodes to zero bytes is not
    refused for being empty: it is written to the temporary file and
    handed to the transcription service like any other, and when the
    transcription, the analysis and the questions succeed the run
    completes, without a log entry. *)
Theorem decode_failure_is_http_500 request user :
  authorize request = inr user ->
  (forall cls msg,
     (b64decode (audio_base64 request) = inl (PyError cls msg) \/
      exists bytes,
        b64decode (audio_base64 request) = inr bytes /\
        transcriptions_create bytes = inl (PyError cls msg)) ->
     exists tr,
       analyze_voice request = (tr, inl (HTTPException 500 msg)) /\
       logs tr = [(ERROR, py "Error: " ++ msg)]) /\
  (forall transcription analysis questions,
     b64decode (audio_base64 request) = inr [] ->
     transcriptions_create [] = inr transcription ->
     analyze_transcription transcription (recording_time request)
     = inr analysis ->
     generate_training_questions analysis transcription = inr questions ->
     exists tr response,
       analyze_voice request = (tr, inr response) /\
       logs tr = [] /\
       FileWrite (gettempdir ++ py "/" ++ uuid4 ++ py ".m4a") [] ∈ tr /\
       response !! py "status" = Some (PStr (py "completed"))).
Proof.
  intros Hauth. split.
  - intros cls msg [Hdec | (bytes & Hdec & Htr)].
    + destruct (process_decode_raises request user uuid4 _ Hdec)
        as (tr & Hproc & Hlogs).
      eexists. split; [eauto using analyze_voice_process_raises |].
      rewrite logs_app, Hlogs. reflexivity.
    + destruct (process_transcribe_raises request user uuid4 bytes _
                  Hdec Htr) as (tr & Hproc & Hlogs).
      eexists. split; [eauto using analyze_voice_process_raises |].
      rewrite logs_app, Hlogs. reflexivity.
  - intros transcription analysis questions Hdec Htr Han Hq.
    exact (analyze_voice_completes request user [] transcription analysis
             questions Hauth Hdec Htr Han Hq).
Qed.

End EndpointFacts.

(** A world in which the model's call times out. *)
Definition world_timeout : Services :=
  sample_services (inr [1%N; 2%N; 3%N]) (inr (py "um hello"))
    (inl (PyError "APITimeoutError" (py "Request timed out."))) (inr PNone).

(** A world in which the buffer is not valid base64. *)
Definition world_bad_audio : Services :=
  sample_services (inl (PyError "binascii.Error" (py "Incorrect padding")))
    (inr []) (inr []) (inr (reply_with_score 80)).

(** C3 witness: the timeout. *)
Lemma refinement_failure_fails_the_run_witness :
  exists tr,
    @analyze_voice ascii_runtime world_timeout (sample_request 60)
    = (tr, inl (HTTPException 500 (py "Request timed out."))) /\
    logs tr = [(ERROR, py "Error: " ++ py "Request timed out.")] /\
    last tr = Some (error_update (py "a1") (py "Request timed out.")).
Proof.
  apply (@refinement_failure_fails_the_run ascii_runtime world_timeout
           (sample_request 60) sample_user [1%N; 2%N; 3%N] (py "um hello")
           "APITimeoutError" (py "Request timed out."));
    [vm_compute; reflexivity | reflexivity | reflexivity |].
  apply (@chat_raises ascii_runtime world_timeout _ _ 2);
    vm_compute; reflexivity.
Defined.

(** C3 at the failing input: when the model's call times out the run
    raises HTTP 500, and its one log entry is an error, not a
    warning. *)
Lemma refinement_timeout_is_an_error :
  snd (@analyze_voice ascii_runtime world_timeout (sample_request 60))
  = inl (HTTPException 500 (py "Request timed out.")) /\
  logs (fst (@analyze_voice ascii_runtime world_timeout (sample_request 60)))
  = [(ERROR, py "Error: Request timed out.")].
Proof. split; vm_compute; reflexivity. Qed.

(** C7 witness: the buffer that does not decode, and the buffer that
    decodes to nothing. *)
Lemma decode_failure_is_http_500_witness :
  (exists tr,
     @analyze_voice ascii_runtime world_bad_audio (sample_request 60)
     = (tr, inl (HTTPException 500 (py "Incorrect padding"))) /\
     logs tr = [(ERROR, py "Error: " ++ py "Incorrect padding")]) /\
  (exists tr response,
     @analyze_voice ascii_runtime world80 (empty_audio_request 60)
     = (tr, inr response) /\
     logs tr = [] /\
     FileWrite (py "/tmp" ++ py "/" ++ py "a1" ++ py ".m4a") [] ∈ tr /\
     response !! py "status" = Some (PStr (py "completed"))).
Proof.
  split.
  - apply (proj1 (@decode_failure_is_http_500 ascii_runtime world_bad_audio
                    (sample_request 60) sample_user
                    ltac:(vm_compute; reflexivity))
             "binascii.Error"%string (py "Incorrect padding")).
    left. reflexivity.
  - apply (proj2 (@decode_failure_is_http_500 ascii_runtime world80
                    (empty_audio_request 60) sample_user
                    ltac:(vm_compute; reflexivity))
             [] (silent_analysis (reply_object 80)) (PList [])).
    + reflexivity.
    + reflexivity.
    + apply (silent_analysis_run (reply_object 80)).
    + vm_compute. reflexivity.
Defined.

(** C7, as the spec states it, fails: a buffer that is no audio at all
    raises an [HTTPException] (status 500), which is no [DecodeError];
    and the empty buffer, which decodes to zero bytes, raises nothing
    where the transcription service accepts it: the run completes. *)
Lemma decode_errors_are_not_typed :
  snd (@analyze_voice ascii_runtime world_bad_audio (sample_request 60))
  = inl (HTTPException 500 (py "Incorrect padding")) /\
  (forall msg,
     HTTPException 500 (py "Incorrect padding")
     <> PyError "DecodeError" msg) /\
  @b64decode world80 (audio_base64 (empty_audio_request 60)) = inr [] /\
  snd (@analyze_voice ascii_runtime world80 (empty_audio_request 60))
  = inr (<[py "assessment_id" := PStr (py "a1")]>
           {[ py "status" := PStr (py "completed") ]}).
Proof.
  split; [vm_compute; reflexivity |]. split; [discriminate |].
  split; vm_compute; reflexivity.
Qed.

(** ** Two runs on one input *)

Section PipelineFacts.
Context `{Runtime} `{Pipeline.Tables}.

(** The refiner never fails the run and never touches a score. *)
Lemma refine_keeps_scores (S : Services) (transcript : pystr)
  (x : Pipeline.Inputs) (r : Pipeline.InsightRecord) :
  exists tr r',
    Pipeline.refine transcript x r = (tr, inr r') /\
    Pipeline.overall_score r' = Pipeline.overall_score r /\
    Pipeline.clarity_score r' = Pipeline.clarity_score r /\
    Pipeline.confidence_score r' = Pipeline.confidence_score r.
Proof.
  unfold Pipeline.refine.
  destruct (chat_completions_create _ _) as [e | content];
    [do 2 eexists; split; [reflexivity | auto] |].
  destruct (json_loads content) as [e | []];
    do 2 eexists; (split; [reflexivity | auto]).
Qed.


End PipelineFacts.

(** A small table for the rule engine: the spec's example rule for
    pitch variety, its two example archetypes, and the share of speech
    as the one sub-score.  The numbers are sample values. *)
Definition pitch_variety : Pipeline.Rule :=
  {| Pipeline.metric :=
       fun x => Pipeline.pitch_std <$> Pipeline.prosody (Pipeline.features x);
     Pipeline.bands := [(20%float, py "steady tone");
                        (50%float, py "balanced variety")];
     Pipeline.top := py "rich, expressive melody" |}.

Definition one_sentence (r : Pipeline.Rule) : Pipeline.Template :=
  {| Pipeline.rules := [r]; Pipeline.assemble := @List.concat N |}.

Definition sample_prosody (std : float) : Pipeline.ProsodyFeatures :=
  {| Pipeline.pitch_mean := 180; Pipeline.pitch_std := std;
     Pipeline.pitch_p5 := 120; Pipeline.pitch_p50 := 180;
     Pipeline.pitch_p95 := 240; Pipeline.pitch_timeseries := [] |}.

Definition sample_tables : Pipeline.Tables :=
  {| Pipeline.extract_features := fun audio =>
       {| Pipeline.prosody :=
            match Pipeline.samples audio with
            | [] => None
            | _ :: _ => Some (sample_prosody 30)
            end;
          Pipeline.loudness := None; Pipeline.quality := None;
          Pipeline.spectral := None |};
     Pipeline.segment := fun _ =>
       {| Pipeline.speech_ratio := 0.5; Pipeline.silence_ratio := 0.5;
          Pipeline.pause_count := 12; Pipeline.mean_pause_duration := 0.5;
          Pipeline.long_pause_count := 0 |};
     Pipeline.first_archetype :=
       {| Pipeline.label := py "Dynamic Storyteller";
          Pipeline.distance := fun x =>
            match Pipeline.prosody (Pipeline.features x) with
            | Some p => PrimFloat.abs (PrimFloat.sub 60 (Pipeline.pitch_std p))
            | None => infinity
            end |};
     Pipeline.other_archetypes :=
       [{| Pipeline.label := py "Thoughtful Speaker";
           Pipeline.distance := fun x =>
             match Pipeline.prosody (Pipeline.features x) with
             | Some p => PrimFloat.abs (PrimFloat.sub 10 (Pipeline.pitch_std p))
             | None => infinity
             end |}];
     Pipeline.headline_template := one_sentence pitch_variety;
     Pipeline.key_insight_templates := [one_sentence pitch_variety];
     Pipeline.went_well_templates := [];
     Pipeline.growth_templates := [];
     Pipeline.tone_template := one_sentence pitch_variety;
     Pipeline.tip_templates := [];
     Pipeline.subscores :=
       [fun x => PrimFloat.mul 100
                   (Pipeline.speech_ratio (Pipeline.timing x))];
     Pipeline.overall_weights := [1%float];
     Pipeline.clarity_weights := [1%float];
     Pipeline.confidence_weights := [1%float];
     Pipeline.refiner_system := py "You are a warm, expert voice coach.";
     Pipeline.refiner_prompt := fun transcript _ => transcript |}.

Definition sample_audio : Pipeline.Waveform :=
  {| Pipeline.samples := [0.25%float; (-0.25)%float];
     Pipeline.sample_rate := 16000 |}.

(** A world in which the model rewrites the headline and offers a score
    of its own. *)
Definition world_rewrite : Services :=
  sample_services (inr []) (inr []) (inr [])
    (inr (PDict (<[py "headline" := PStr (py "A calm, clear voice")]>
                   {[ py "overall_score" := PInt 5 ]}))).


(** The condition matters: with the refiner enabled the two worlds give
    different headlines, the rule engine's and the model's, and the same
    overall score, the rule engine's, with a warning for the timeout. *)
Lemma refiner_enabled_runs_differ :
  exists r1 r2,
    @Pipeline.analyze ascii_runtime world_timeout sample_tables true
      sample_audio (py "so it goes") 3
    = ([Log WARNING (py "Request timed out.")], inr r1) /\
    @Pipeline.analyze ascii_runtime world_rewrite sample_tables true
      sample_audio (py "so it goes") 3
    = ([], inr r2) /\
    Pipeline.headline r1 = py "balanced variety" /\
    Pipeline.headline r2 = py "A calm, clear voice" /\
    Pipeline.overall_score r1 = 50%float /\
    Pipeline.overall_score r2 = 50%float.
Proof.
  do 2 eexists. split; [vm_compute; reflexivity |].
  split; [vm_compute; reflexivity |].
  repeat split; vm_compute; reflexivity.
Qed.

(** ** The speaking pace *)

(** The spec's reading of the pace: [p] is an integer nearest to
    [60 * words / seconds]. *)
Definition nearest_to_words_per_minute (words seconds p : Z) : Prop :=
  2 * Z.abs (60 * words - p * seconds) <= Z.abs seconds.

(** [P] on the [n] integers from [z] on. *)
Fixpoint all_from (n : nat) (z : Z) (P : Z -> bool) : bool :=
  match n with
  | O => true
  | S k => P z && all_from k (z + 1) P
  end.

Lemma all_from_spec (n : nat) (z : Z) (P : Z -> bool) :
  all_from n z P = true ->
  forall x, z <= x < z + Z.of_nat n -> P x = true.
Proof.
  revert z. induction n as [| n IH]; intros z Hall x Hx; [lia |].
  cbn [all_from] in Hall. apply andb_prop in Hall as [Hz Hrest].
  destruct (Z.eq_dec x z) as [-> | Hne]; [exact Hz |].
  apply (IH (z + 1) Hrest). lia.
Qed.

(** *** Binary64 arithmetic *)

(** The number of binary digits. *)

Lemma digits2_pos_bounds (p : positive) :
  2 ^ (Zpos (digits2_pos p) - 1) <= Zpos p < 2 ^ Zpos (digits2_pos p).
Proof.
  induction p as [p IH | p IH |]; cbn [digits2_pos].
  - rewrite Pos2Z.inj_succ.
    replace (Z.succ (Zpos (digits2_pos p)) - 1)
      with (Z.succ (Zpos (digits2_pos p) - 1)) by lia.
    rewrite !Z.pow_succ_r by lia. lia.
  - rewrite Pos2Z.inj_succ.
    replace (Z.succ (Zpos (digits2_pos p)) - 1)
      with (Z.succ (Zpos (digits2_pos p) - 1)) by lia.
    rewrite !Z.pow_succ_r by lia. lia.
  - cbn. lia.
Qed.

Lemma Zdigits2_bounds (m : Z) :
  0 < m -> 2 ^ (Zdigits2 m - 1) <= m < 2 ^ Zdigits2 m /\ 0 < Zdigits2 m.
Proof.
  destruct m as [| p | p]; try lia. intros _.
  split; [apply digits2_pos_bounds | reflexivity].
Qed.

Lemma Zdigits2_unique (m k : Z) :
  2 ^ (k - 1) <= m < 2 ^ k -> 0 < k -> Zdigits2 m = k.
Proof.
  intros Hm Hk.
  assert (0 < m) as Hpos by (pose proof (Z.pow_pos_nonneg 2 (k - 1)); lia).
  destruct (Zdigits2_bounds m Hpos) as [Hd Hd0].
  destruct (Z.lt_trichotomy (Zdigits2 m) k) as [Hlt | [Heq | Hgt]];
    [| exact Heq |].
  - assert (2 ^ Zdigits2 m <= 2 ^ (k - 1))
      by (apply Z.pow_le_mono_r; lia).
    lia.
  - assert (2 ^ k <= 2 ^ (Zdigits2 m - 1))
      by (apply Z.pow_le_mono_r; lia).
    lia.
Qed.

(** The record [mrs] stands for the fraction [N / D]: its mantissa is
    the integer part, and its two bits say where the rest lies with
    respect to one half. *)
Definition brackets (mrs : shr_record) (N D : Z) : Prop :=
  0 < D /\ 0 <= shr_m mrs /\
  0 <= N - shr_m mrs * D < D /\
  match shr_r mrs, shr_s mrs with
  | false, false => N - shr_m mrs * D = 0
  | false, true => 0 < 2 * (N - shr_m mrs * D) < D
  | true, false => 2 * (N - shr_m mrs * D) = D
  | true, true => D < 2 * (N - shr_m mrs * D)
  end.

Lemma shr_1_brackets (mrs : shr_record) (N D : Z) :
  brackets mrs N D -> brackets (shr_1 mrs) N (2 * D).
Proof.
  destruct mrs as [m r s]. unfold brackets. cbn [shr_m shr_r shr_s].
  intros (HD & Hm & Hf & Hrs).
  destruct m as [| [p | p |] | p]; [| | | | lia];
    destruct r, s; cbn [shr_1 shr_m shr_r shr_s orb]; lia.
Qed.

Lemma iter_shr_1_brackets (p : positive) (N : Z) :
  forall mrs D,
    brackets mrs N D ->
    brackets (SpecFloat.iter_pos shr_1 p mrs) N (2 ^ Zpos p * D).
Proof.
  induction p as [p IH | p IH |]; intros mrs D Hb; cbn [SpecFloat.iter_pos].
  - assert (2 ^ Zpos p~1 = 2 * (2 ^ Zpos p * 2 ^ Zpos p)) as ->
      by (rewrite <- Z.pow_add_r, <- Z.pow_succ_r by lia; f_equal; lia).
    replace (2 * (2 ^ Zpos p * 2 ^ Zpos p) * D)
      with (2 ^ Zpos p * (2 ^ Zpos p * (2 * D))) by ring.
    apply IH, IH, shr_1_brackets, Hb.
  - assert (2 ^ Zpos p~0 = 2 ^ Zpos p * 2 ^ Zpos p) as ->
      by (rewrite <- Z.pow_add_r by lia; f_equal; lia).
    rewrite <- Z.mul_assoc. apply IH, IH, Hb.
  - rewrite Z.pow_1_r. apply shr_1_brackets, Hb.
Qed.

Lemma shr_brackets (mrs : shr_record) (e n N D : Z) :
  0 <= n ->
  brackets mrs N D ->
  brackets (fst (shr mrs e n)) N (2 ^ n * D) /\ snd (shr mrs e n) = e + n.
Proof.
  intros Hn Hb. destruct n as [| p | p]; [| | lia]; cbn [shr fst snd].
  - rewrite Z.pow_0_r, Z.mul_1_l, Z.add_0_r. auto.
  - split; [apply iter_shr_1_brackets, Hb | reflexivity].
Qed.

(** Rounding to nearest, ties to even, moves by at most one half. *)
Lemma round_nearest_even_brackets (mrs : shr_record) (N D : Z) :
  brackets mrs N D ->
  let m' := round_nearest_even (shr_m mrs) (loc_of_shr_record mrs) in
  shr_m mrs <= m' <= shr_m mrs + 1 /\ 2 * Z.abs (m' * D - N) <= D.
Proof.
  destruct mrs as [m r s]. unfold brackets. cbn [shr_m shr_r shr_s].
  intros (HD & Hm & Hf & Hrs).
  destruct r, s; cbn [loc_of_shr_record round_nearest_even];
    try destruct (Z.even m); lia.
Qed.

(** The location of a quotient from its remainder. *)
Lemma new_location_brackets (q r N D : Z) :
  0 < D -> 0 <= q -> 0 <= r < D -> N = q * D + r ->
  brackets (shr_record_of_loc q (new_location D r)) N D.
Proof.
  intros HD Hq Hr ->. unfold new_location, new_location_even,
    new_location_odd.
  destruct (Z.even D) eqn:Hev.
  - destruct (Z.eqb_spec r 0) as [-> | Hr0].
    + unfold brackets. cbn. lia.
    + destruct (Z.compare_spec (2 * r) D); unfold brackets; cbn; lia.
  - destruct (Z.eqb_spec r 0) as [-> | Hr0].
    + unfold brackets. cbn. lia.
    + assert (2 * r <> D) as Hne.
      { intros <-. rewrite Z.even_mul in Hev. discriminate. }
      destruct (Z.compare_spec (2 * r + 1) D); unfold brackets; cbn; lia.
Qed.

Lemma shr_m_of_loc (m : Z) (l : location) : shr_m (shr_record_of_loc m l) = m.
Proof. destruct l as [| []]; reflexivity. Qed.

Lemma fexp_normal (x : Z) : -1021 <= x -> fexp prec emax x = x - 53.
Proof. unfold fexp, emin, prec, emax. lia. Qed.

(** A mantissa of at least 53 digits that stands for [N / D] (in units of
    [2 ^ e]) is rounded to a 53-digit mantissa within half a unit in
    the last place of [N / D]. *)
Lemma binary_round_aux_nearest (m e N D : Z) (l : location) :
  0 < m ->
  53 <= Zdigits2 m ->
  -1074 <= e + Zdigits2 m - 53 < 971 ->
  brackets (shr_record_of_loc m l) N D ->
  exists (m' : positive) (k : Z),
    binary_round_aux prec emax false m e l = S754_finite false m' (e + k) /\
    Zdigits2 m - 53 <= k <= Zdigits2 m - 52 /\
    2 ^ 52 <= Zpos m' < 2 ^ 53 /\
    2 * Z.abs (Zpos m' * (2 ^ k * D) - N) <= 2 ^ k * D.
Proof.
  intros Hm Hd He Hb.
  destruct (Zdigits2_bounds m Hm) as [Hmb _].
  set (d := Zdigits2 m) in *.
  unfold binary_round_aux, shr_fexp. fold d.
  rewrite (fexp_normal (d + e)) by lia.
  replace (d + e - 53 - e) with (d - 53) by lia.
  destruct (shr_brackets (shr_record_of_loc m l) e (d - 53) N D
              ltac:(lia) Hb) as [Hb1 He1].
  destruct (shr (shr_record_of_loc m l) e (d - 53)) as [mrs1 e1].
  cbn [fst snd] in Hb1, He1. subst e1.
  assert (0 < 2 ^ (d - 53)) as HP by (apply Z.pow_pos_nonneg; lia).
  assert (2 ^ d = 2 ^ 53 * 2 ^ (d - 53)) as Hd1
    by (rewrite <- Z.pow_add_r by lia; f_equal; lia).
  assert (2 ^ (d - 1) = 2 ^ 52 * 2 ^ (d - 53)) as Hd2
    by (rewrite <- Z.pow_add_r by lia; f_equal; lia).
  set (P := 2 ^ (d - 53)) in *.
  pose proof Hb as (HD & _ & Hf & _). rewrite shr_m_of_loc in Hf.
  pose proof Hb1 as (_ & Hm1 & Hf1 & _).
  destruct (round_nearest_even_brackets mrs1 N (P * D) Hb1) as [Hm2 Herr].
  cbv zeta in Hm2, Herr.
  set (m1 := shr_m mrs1) in *.
  set (m2 := round_nearest_even m1 (loc_of_shr_record mrs1)) in *.
  assert (0 < P * D) as HPD by nia.
  assert (2 ^ 52 <= m1 < 2 ^ 53) as Hm1b.
  { split.
    - assert (2 ^ 52 * (P * D) < (m1 + 1) * (P * D)) by nia.
      assert (2 ^ 52 < m1 + 1) by (apply (Z.mul_lt_mono_pos_r (P * D)); lia).
      lia.
    - assert (m1 * (P * D) < 2 ^ 53 * (P * D)) by nia.
      apply (Z.mul_lt_mono_pos_r (P * D)); lia. }
  destruct (Z.eq_dec m2 (2 ^ 53)) as [Hcarry | Hno].
  - rewrite Hcarry.
    replace (Zdigits2 (2 ^ 53)) with 54 by reflexivity.
    rewrite (fexp_normal (54 + (e + (d - 53)))) by lia.
    replace (54 + (e + (d - 53)) - 53 - (e + (d - 53))) with 1 by lia.
    cbn [shr shr_record_of_loc SpecFloat.iter_pos].
    replace (shr_1 {| shr_m := 2 ^ 53; shr_r := false; shr_s := false |})
      with {| shr_m := 2 ^ 52; shr_r := false; shr_s := false |}
      by reflexivity.
    cbn [shr_m]. replace (2 ^ 52) with (Zpos (2 ^ 52)%positive) by reflexivity.
    replace (e + (d - 53) + 1 <=? emax - prec) with true
      by (symmetry; apply Z.leb_le; unfold emax, prec; lia).
    exists (2 ^ 52)%positive, (d - 52).
    split; [f_equal; lia |]. split; [lia |].
    split; [split; [reflexivity | reflexivity] |].
    replace (Zpos (2 ^ 52)) with (2 ^ 52) by reflexivity.
    assert (2 ^ (d - 52) = 2 * P) as ->
      by (unfold P; rewrite <- Z.pow_succ_r by lia; f_equal; lia).
    replace (2 ^ 52 * (2 * P * D)) with (2 ^ 53 * (P * D)) by
      (change (2 ^ 53) with (2 * 2 ^ 52); ring).
    rewrite <- Hcarry. lia.
  - assert (2 ^ 52 <= m2 < 2 ^ 53) as Hm2b by lia.
    rewrite (Zdigits2_unique m2 53) by (change (53 - 1) with 52; lia).
    rewrite (fexp_normal (53 + (e + (d - 53)))) by lia.
    replace (53 + (e + (d - 53)) - 53 - (e + (d - 53))) with 0 by lia.
    cbn [shr shr_record_of_loc shr_m].
    destruct m2 as [| p2 | p2] eqn:Ep2; [lia | | lia].
    replace (e + (d - 53) <=? emax - prec) with true
      by (symmetry; apply Z.leb_le; unfold emax, prec; lia).
    exists p2, (d - 53).
    split; [reflexivity |]. split; [lia |]. split; [lia |].
    fold P. exact Herr.
Qed.


Lemma Zdigits2_range (m a b : Z) :
  0 < a -> 2 ^ (a - 1) <= m < 2 ^ b -> a <= Zdigits2 m <= b.
Proof.
  intros Ha Hm.
  assert (0 < m) as Hpos by (pose proof (Z.pow_pos_nonneg 2 (a - 1)); lia).
  destruct (Zdigits2_bounds m Hpos) as [Hd Hd0].
  split.
  - destruct (Z.le_gt_cases a (Zdigits2 m)) as [| Hlt]; [assumption |].
    assert (2 ^ Zdigits2 m <= 2 ^ (a - 1)) by (apply Z.pow_le_mono_r; lia).
    lia.
  - destruct (Z.le_gt_cases (Zdigits2 m) b) as [| Hlt]; [assumption |].
    assert (2 ^ b <= 2 ^ (Zdigits2 m - 1)) by (apply Z.pow_le_mono_r; lia).
    lia.
Qed.

Lemma Zdigits2_below (m b : Z) : 0 <= m < 2 ^ b -> 0 <= b -> Zdigits2 m <= b.
Proof.
  intros Hm Hb. destruct (Z.eq_dec m 0) as [-> | Hm0]; [exact Hb |].
  destruct (Zdigits2_bounds m ltac:(lia)) as [Hd Hd0].
  destruct (Z.le_gt_cases (Zdigits2 m) b) as [| Hlt]; [assumption |].
  assert (2 ^ b <= 2 ^ (Zdigits2 m - 1)) by (apply Z.pow_le_mono_r; lia).
  lia.
Qed.

Lemma Zdigits2_nonneg (m : Z) : 0 <= Zdigits2 m.
Proof. destruct m; cbn; lia. Qed.

Lemma valid_normal (s : bool) (m : positive) (e : Z) :
  Zdigits2 (Zpos m) = 53 -> -1074 <= e <= 971 ->
  SpecFloat.valid_binary prec emax (S754_finite s m e) = true.
Proof.
  intros Hd He. cbn [SpecFloat.valid_binary]. unfold bounded, canonical_mantissa.
  cbn [Zdigits2] in Hd. rewrite Hd, (fexp_normal (53 + e)) by lia.
  apply andb_true_intro. split; [apply Z.eqb_eq; lia |].
  apply Z.leb_le. unfold emax, prec. lia.
Qed.

Lemma fexp_subnormal (x : Z) : x <= -1021 -> fexp prec emax x = -1074.
Proof. unfold fexp, emin, prec, emax. lia. Qed.

Lemma valid_subnormal (s : bool) (m : positive) :
  Zpos m < 2 ^ 53 ->
  SpecFloat.valid_binary prec emax (S754_finite s m (-1074)) = true.
Proof.
  intros Hm. cbn [SpecFloat.valid_binary]. unfold bounded, canonical_mantissa.
  pose proof (Zdigits2_below (Zpos m) 53 ltac:(lia) ltac:(lia)) as Hd.
  cbn [Zdigits2] in Hd.
  rewrite (fexp_subnormal (Zpos (digits2_pos m) + -1074)) by lia.
  reflexivity.
Qed.

Lemma loc_of_record_of_loc (m : Z) (l : location) :
  loc_of_shr_record (shr_record_of_loc m l) = l.
Proof. destruct l as [| []]; reflexivity. Qed.

(** What the division of two positive integers hands to the rounding:
    the quotient of [w * 2 ^ s] by [t], at the exponent [- s], with the
    place of the remainder. *)
Lemma int_div_core (w t : Z) :
  0 < w -> 0 < t ->
  let e := Z.min (fexp prec emax (Zdigits2 w - Zdigits2 t)) 0 in
  exists q r,
    SFdiv_core_binary prec emax w 0 t 0 = (q, e, new_location t r) /\
    w * 2 ^ (- e) = q * t + r /\ 0 <= r < t /\ 0 <= q.
Proof.
  intros Hw Ht e. unfold SFdiv_core_binary.
  replace (Zdigits2 w + 0 - (Zdigits2 t + 0))
    with (Zdigits2 w - Zdigits2 t) by lia.
  change (0 - 0) with 0. fold e. change (0 - e) with (- e).
  assert (0 <= - e) as He by (unfold e; lia).
  assert (match - e with
          | 0 => w
          | Zpos _ => Z.shiftl w (- e)
          | Zneg _ => 0
          end = w * 2 ^ (- e)) as ->.
  { destruct (- e) as [| p | p] eqn:E; [| | lia].
    - rewrite Z.pow_0_r. lia.
    - apply Z.shiftl_mul_pow2. lia. }
  pose proof (Z_div_mod (w * 2 ^ (- e)) t ltac:(lia)) as Hdiv.
  destruct (Z.div_eucl (w * 2 ^ (- e)) t) as [q r].
  destruct Hdiv as [Hqr Hr].
  exists q, r. split; [reflexivity |]. split; [lia |]. split; [lia |].
  assert (0 <= w * 2 ^ (- e)) by (pose proof (Z.pow_pos_nonneg 2 (- e)); nia).
  nia.
Qed.

(** The quotient of two positive integers, where it is a normal
    float: the exact quotient rounded to nearest. *)
Lemma int_truediv_nearest (w t : Z) :
  0 < w -> 0 < t ->
  -1021 <= Zdigits2 w - Zdigits2 t <= 53 ->
  exists (mq : positive) (k : Z),
    int_truediv_SF w t
    = S754_finite false mq (Zdigits2 w - Zdigits2 t - 53 + k) /\
    0 <= k <= 2 /\
    Zdigits2 (Zpos mq) = 53 /\
    2 * Z.abs (Zpos mq * (2 ^ k * t)
               - w * 2 ^ (53 + Zdigits2 t - Zdigits2 w))
    <= 2 ^ k * t.
Proof.
  intros Hw Ht Hd.
  destruct (Zdigits2_bounds w Hw) as [Hwb Hdw].
  destruct (Zdigits2_bounds t Ht) as [Htb Hdt].
  destruct (int_div_core w t Hw Ht) as (q & r & Hcore & Hqr & Hr & Hq).
  rewrite (fexp_normal (Zdigits2 w - Zdigits2 t)) in Hcore, Hqr by lia.
  replace (Z.min (Zdigits2 w - Zdigits2 t - 53) 0)
    with (Zdigits2 w - Zdigits2 t - 53) in Hcore, Hqr by lia.
  replace (- (Zdigits2 w - Zdigits2 t - 53))
    with (53 + Zdigits2 t - Zdigits2 w) in Hqr by lia.
  unfold int_truediv_SF. destruct w as [| pw | pw]; try lia.
  replace (Z.abs (Zpos pw)) with (Zpos pw) by reflexivity.
  replace (Z.abs t) with t by lia.
  replace (Zpos pw <? 0) with false by reflexivity.
  replace (t <? 0) with false by (symmetry; apply Z.ltb_ge; lia).
  rewrite Hcore. cbn [xorb].
  set (dw := Zdigits2 (Zpos pw)) in *. set (dt := Zdigits2 t) in *.
  set (s := 53 + dt - dw) in *.
  assert (2 ^ s * 2 ^ (dw - 1) = 2 ^ 53 * 2 ^ (dt - 1)) as E1
    by (rewrite <- !Z.pow_add_r by lia; f_equal; lia).
  assert (2 ^ s * 2 ^ dw = 2 ^ 54 * 2 ^ (dt - 1)) as E2
    by (rewrite <- !Z.pow_add_r by lia; f_equal; lia).
  assert (2 ^ dt = 2 * 2 ^ (dt - 1)) as E3
    by (rewrite <- Z.pow_succ_r by lia; f_equal; lia).
  assert (0 < 2 ^ s) as Hs by (apply Z.pow_pos_nonneg; lia).
  assert (0 < 2 ^ (dt - 1)) as HQ by (apply Z.pow_pos_nonneg; lia).
  assert (2 ^ 52 <= q < 2 ^ 54) as Hqb.
  { set (S' := 2 ^ s) in *. set (Q := 2 ^ (dt - 1)) in *.
    set (P := 2 ^ (dw - 1)) in *. set (P2 := 2 ^ dw) in *.
    assert (2 ^ 53 * Q <= Zpos pw * S') by nia.
    assert (Zpos pw * S' < 2 ^ 54 * Q) by nia.
    change (2 ^ 54) with (2 * 2 ^ 53) in *.
    change (2 ^ 53) with (2 * 2 ^ 52) in *.
    split.
    - destruct (Z.le_gt_cases (2 ^ 52) q) as [| Hlt]; [assumption |].
      exfalso. assert ((q + 1) * t <= 2 ^ 52 * t) by nia. nia.
    - destruct (Z.lt_ge_cases q (2 * (2 * 2 ^ 52))) as [| Hge];
        [assumption |].
      exfalso. assert (2 * (2 * 2 ^ 52) * t <= q * t) by nia. nia. }
  destruct (Zdigits2_range q 53 54 ltac:(lia) ltac:(exact Hqb)) as [Hq1 Hq2].
  destruct (binary_round_aux_nearest q (dw - dt - 53)
              (Zpos pw * 2 ^ s) t (new_location t r))
    as (mq & k & Hres & Hk & Hmq & Herr); try lia.
  { apply new_location_brackets; lia. }
  exists mq, k. split; [exact Hres |]. split; [lia |].
  split; [apply Zdigits2_unique; [exact Hmq | lia] | exact Herr].
Qed.

(** A mantissa below 2^53 at the least exponent: the rounding keeps the
    exponent, or carries into the least normal float. *)
Lemma binary_round_aux_subnormal (m N D : Z) (l : location) :
  0 <= m < 2 ^ 53 ->
  brackets (shr_record_of_loc m l) N D ->
  binary_round_aux prec emax false m (-1074) l = S754_zero false \/
  exists (m' : positive) (e' : Z),
    binary_round_aux prec emax false m (-1074) l = S754_finite false m' e' /\
    SpecFloat.valid_binary prec emax (S754_finite false m' e') = true /\
    -1074 <= e' <= -1073 /\ Zpos m' < 2 ^ 53.
Proof.
  intros Hm Hb.
  pose proof (Zdigits2_below m 53 Hm ltac:(lia)) as Hd.
  pose proof (Zdigits2_nonneg m) as Hd0.
  unfold binary_round_aux, shr_fexp.
  rewrite (fexp_subnormal (Zdigits2 m + -1074)) by lia.
  replace (-1074 - -1074) with 0 by lia. cbn [shr].
  rewrite shr_m_of_loc, loc_of_record_of_loc.
  destruct (round_nearest_even_brackets _ N D Hb) as [Hm2 _].
  cbv zeta in Hm2. rewrite shr_m_of_loc, loc_of_record_of_loc in Hm2.
  set (m2 := round_nearest_even m l) in *.
  destruct (Z.eq_dec m2 (2 ^ 53)) as [Hcarry | Hno].
  - right. rewrite Hcarry.
    exists (2 ^ 52)%positive, (-1073). split; [reflexivity |].
    split; [reflexivity |]. split; [lia | reflexivity].
  - pose proof (Zdigits2_below m2 53 ltac:(lia) ltac:(lia)) as Hd2.
    pose proof (Zdigits2_nonneg m2) as Hd20.
    rewrite (fexp_subnormal (Zdigits2 m2 + -1074)) by lia.
    replace (-1074 - -1074) with 0 by lia. cbn [shr shr_record_of_loc shr_m].
    destruct m2 as [| p2 | p2] eqn:E2; [left; reflexivity | | lia].
    right. exists p2, (-1074).
    split; [reflexivity |]. split; [apply valid_subnormal; lia |]. lia.
Qed.

(** The quotient of two positive integers, where it is below the
    normal floats. *)
Lemma int_truediv_tiny (w t : Z) :
  0 < w -> 0 < t ->
  Zdigits2 w - Zdigits2 t < -1021 ->
  int_truediv_SF w t = S754_zero false \/
  exists (mq : positive) (eq : Z),
    int_truediv_SF w t = S754_finite false mq eq /\
    SpecFloat.valid_binary prec emax (S754_finite false mq eq) = true /\
    -1074 <= eq <= -1073 /\ Zpos mq < 2 ^ 53.
Proof.
  intros Hw Ht Hd.
  destruct (Zdigits2_bounds w Hw) as [Hwb Hdw].
  destruct (Zdigits2_bounds t Ht) as [Htb Hdt].
  destruct (int_div_core w t Hw Ht) as (q & r & Hcore & Hqr & Hr & Hq).
  rewrite (fexp_subnormal (Zdigits2 w - Zdigits2 t)) in Hcore, Hqr by lia.
  change (Z.min (-1074) 0) with (-1074) in Hcore, Hqr.
  change (- -1074) with 1074 in Hqr.
  unfold int_truediv_SF. destruct w as [| pw | pw]; try lia.
  replace (Z.abs (Zpos pw)) with (Zpos pw) by reflexivity.
  replace (Z.abs t) with t by lia.
  replace (Zpos pw <? 0) with false by reflexivity.
  replace (t <? 0) with false by (symmetry; apply Z.ltb_ge; lia).
  rewrite Hcore. cbn [xorb].
  apply (binary_round_aux_subnormal q (Zpos pw * 2 ^ 1074) t).
  - split; [exact Hq |].
    set (dw := Zdigits2 (Zpos pw)) in *. set (dt := Zdigits2 t) in *.
    assert (2 ^ dw * 2 ^ 1074 <= 2 ^ 53 * 2 ^ (dt - 1)) as E.
    { rewrite <- !Z.pow_add_r by lia. apply Z.pow_le_mono_r; lia. }
    assert (0 < 2 ^ (dt - 1)) by (apply Z.pow_pos_nonneg; lia).
    destruct (Z.lt_ge_cases q (2 ^ 53)) as [| Hge]; [assumption |].
    exfalso.
    assert (2 ^ 53 * t <= q * t) by nia.
    assert (2 ^ 53 * 2 ^ (dt - 1) <= 2 ^ 53 * t) by nia.
    assert (Zpos pw * 2 ^ 1074 < 2 ^ dw * 2 ^ 1074).
    { apply Z.mul_lt_mono_pos_r; [apply Z.pow_pos_nonneg |]; lia. }
    lia.
  - apply new_location_brackets; lia.
Qed.

(** And so is the product of two normal floats. *)
Lemma mul_nearest (a b : float) (ma mb : positive) (ea eb : Z) :
  Prim2SF a = S754_finite false ma ea ->
  Prim2SF b = S754_finite false mb eb ->
  Zdigits2 (Zpos ma) = 53 -> Zdigits2 (Zpos mb) = 53 ->
  -1126 <= ea + eb < 917 ->
  exists (mz : positive) (k : Z),
    Prim2SF (a * b) = S754_finite false mz (ea + eb + k) /\
    52 <= k <= 54 /\
    2 ^ 52 <= Zpos mz < 2 ^ 53 /\
    2 * Z.abs (Zpos mz * 2 ^ k - Zpos ma * Zpos mb) <= 2 ^ k.
Proof.
  intros Ha Hb Hda Hdb He.
  destruct (Zdigits2_bounds (Zpos ma) ltac:(lia)) as [Hma _].
  destruct (Zdigits2_bounds (Zpos mb) ltac:(lia)) as [Hmb _].
  rewrite Hda in Hma. rewrite Hdb in Hmb. change (53 - 1) with 52 in *.
  rewrite mul_spec, Ha, Hb. unfold SF64mul. cbn [SFmul xorb].
  rewrite Pos2Z.inj_mul.
  assert (2 ^ (105 - 1) <= Zpos ma * Zpos mb < 2 ^ 106) as Hprod.
  { change (2 ^ (105 - 1)) with (2 ^ 52 * 2 ^ 52).
    change (2 ^ 106) with (2 ^ 53 * 2 ^ 53). nia. }
  destruct (Zdigits2_range _ 105 106 ltac:(lia) Hprod) as [Hp1 Hp2].
  destruct (binary_round_aux_nearest (Zpos ma * Zpos mb) (ea + eb)
              (Zpos ma * Zpos mb) 1 loc_Exact)
    as (mz & k & Hres & Hk & Hmz & Herr); try lia.
  { unfold brackets. cbn. lia. }
  exists mz, k. split; [exact Hres |]. split; [lia |].
  split; [exact Hmz |]. rewrite Z.mul_1_r in Herr. exact Herr.
Qed.

(** *** From the floats to the pace *)

Lemma trunc_SF_below_one_ulp (m : positive) (e : Z) :
  e < 0 -> trunc_SF (S754_finite false m e) = Some (Zpos m / 2 ^ (- e)).
Proof.
  destruct e as [| p | p]; try lia. intros _. cbn [trunc_SF].
  rewrite Z.shiftr_div_pow2 by lia. reflexivity.
Qed.

Lemma Zdigits2_upper (m : Z) : 0 <= m -> m < 2 ^ Zdigits2 m.
Proof.
  intros Hm. destruct (Z.eq_dec m 0) as [-> | Hm0]; [reflexivity |].
  apply (Zdigits2_bounds m). lia.
Qed.

(** A value below one half, at an exponent under the least one, is
    rounded to a float whose integer part is zero. *)
Lemma binary_round_aux_below_one (m e N D : Z) (l : location) :
  0 <= m -> e <= -1074 -> Zdigits2 m + e <= -1 ->
  brackets (shr_record_of_loc m l) N D ->
  trunc_SF (binary_round_aux prec emax false m e l) = Some 0.
Proof.
  intros Hm He Hde Hb.
  pose proof (Zdigits2_upper m Hm) as Hmd.
  pose proof (Zdigits2_nonneg m) as Hd0.
  set (d := Zdigits2 m) in *.
  unfold binary_round_aux, shr_fexp. fold d.
  set (e1 := fexp prec emax (d + e)).
  assert (-1074 <= e1 <= -54 /\ d + e - 53 <= e1) as [He1 He1d]
    by (unfold e1, fexp, emin, prec, emax; lia).
  destruct (shr_brackets (shr_record_of_loc m l) e (e1 - e) N D
              ltac:(lia) Hb) as [Hb1 Hs1].
  destruct (shr (shr_record_of_loc m l) e (e1 - e)) as [mrs1 e1'].
  cbn [fst snd] in Hb1, Hs1. subst e1'.
  replace (e + (e1 - e)) with e1 by lia.
  assert (0 < 2 ^ (e1 - e)) as HP by (apply Z.pow_pos_nonneg; lia).
  assert (2 ^ d <= 2 ^ 53 * 2 ^ (e1 - e)) as Hpow.
  { rewrite <- Z.pow_add_r by lia. apply Z.pow_le_mono_r; lia. }
  set (P := 2 ^ (e1 - e)) in *.
  pose proof Hb as (HD & _ & Hf & _). rewrite shr_m_of_loc in Hf.
  pose proof Hb1 as (_ & Hm1 & Hf1 & _).
  destruct (round_nearest_even_brackets mrs1 N (P * D) Hb1) as [Hm2 _].
  cbv zeta in Hm2.
  set (m1 := shr_m mrs1) in *.
  set (m2 := round_nearest_even m1 (loc_of_shr_record mrs1)) in *.
  assert (m1 < 2 ^ 53) as Hm1b.
  { assert (m1 * P * D < (m + 1) * D) by lia.
    assert (m1 * P < m + 1) by (apply (Z.mul_lt_mono_pos_r D); lia).
    apply (Z.mul_lt_mono_pos_r P); lia. }
  destruct (Z.eq_dec m2 (2 ^ 53)) as [Hcarry | Hno].
  - rewrite Hcarry.
    replace (Zdigits2 (2 ^ 53)) with 54 by reflexivity.
    assert (fexp prec emax (54 + e1) - e1 = 1) as ->
      by (unfold fexp, emin, prec, emax; lia).
    cbn [shr shr_record_of_loc SpecFloat.iter_pos].
    replace (shr_1 {| shr_m := 2 ^ 53; shr_r := false; shr_s := false |})
      with {| shr_m := 2 ^ 52; shr_r := false; shr_s := false |}
      by reflexivity.
    cbn [shr_m]. replace (2 ^ 52) with (Zpos (2 ^ 52)%positive) by reflexivity.
    replace (e1 + 1 <=? emax - prec) with true
      by (symmetry; apply Z.leb_le; unfold emax, prec; lia).
    rewrite trunc_SF_below_one_ulp by lia. f_equal.
    apply Z.div_small. split; [lia |].
    replace (Zpos (2 ^ 52)) with (2 ^ 52) by reflexivity.
    apply Z.pow_lt_mono_r; lia.
  - assert (0 <= m2 < 2 ^ 53) as Hm2b by lia.
    pose proof (Zdigits2_below m2 53 Hm2b ltac:(lia)) as Hd2.
    pose proof (Zdigits2_nonneg m2) as Hd20.
    assert (fexp prec emax (Zdigits2 m2 + e1) - e1 <= 0) as Hn2
      by (unfold fexp, emin, prec, emax; lia).
    assert (shr (shr_record_of_loc m2 loc_Exact) e1
              (fexp prec emax (Zdigits2 m2 + e1) - e1)
            = (shr_record_of_loc m2 loc_Exact, e1)) as ->.
    { destruct (fexp prec emax (Zdigits2 m2 + e1) - e1); [| lia |];
        reflexivity. }
    cbn [shr_record_of_loc shr_m].
    destruct m2 as [| p2 | p2] eqn:E2; [reflexivity | | lia].
    replace (e1 <=? emax - prec) with true
      by (symmetry; apply Z.leb_le; unfold emax, prec; lia).
    rewrite trunc_SF_below_one_ulp by lia. f_equal.
    apply Z.div_small. split; [lia |].
    assert (2 ^ 53 <= 2 ^ (- e1)) by (apply Z.pow_le_mono_r; lia).
    lia.
Qed.

Lemma float_of_60 :
  Prim2SF (float_of_Z 60) = S754_finite false 8444249301319680 (-47).
Proof. vm_compute. reflexivity. Qed.

(** Two roundings, of the quotient and of the product, leave the
    mantissa of the product within 23/16 of a unit of [60 * w / t]. *)
Lemma pace_error (w t MQ MX V Kq K : Z) :
  0 < t -> 0 < Kq -> 2 ^ 52 <= K ->
  2 * Z.abs (MQ * (Kq * t) - w * V) <= Kq * t ->
  2 * Z.abs (MX * K - MQ * (60 * 2 ^ 47)) <= K ->
  16 * Z.abs (MX * t * (Kq * K) - 60 * w * (V * 2 ^ 47))
  <= 23 * t * (Kq * K).
Proof.
  intros Ht HKq HK Hq Hx.
  set (H := Kq * t) in *.
  assert (0 < H) as HH by (unfold H; nia).
  set (d1 := MX * K - MQ * (60 * 2 ^ 47)) in *.
  set (d2 := MQ * H - w * V) in *.
  assert (MX * t * (Kq * K) - 60 * w * (V * 2 ^ 47)
          = d1 * H + 60 * 2 ^ 47 * d2) as ->
    by (unfold d1, d2, H; ring).
  replace (23 * t * (Kq * K)) with (23 * (H * K)) by (unfold H; ring).
  assert (2 * (Z.abs d1 * H) <= K * H) as E1 by nia.
  assert (0 < 60 * 2 ^ 47) as Hc by reflexivity.
  assert (8 * (60 * 2 ^ 47) <= 15 * 2 ^ 52) as Hc8
    by (vm_compute; discriminate).
  set (c := 60 * 2 ^ 47) in *.
  assert (2 * (c * Z.abs d2) <= c * H) as E2 by nia.
  assert (Z.abs (d1 * H + c * d2) <= Z.abs d1 * H + c * Z.abs d2) as E3.
  { etransitivity; [apply Z.abs_triangle |].
    rewrite !Z.abs_mul, (Z.abs_eq H), (Z.abs_eq c) by lia.
    reflexivity. }
  assert (8 * (c * H) <= 15 * (H * K)) as E4 by nia.
  lia.
Qed.

(** The integer part of [mx / T], when [mx * t] is that close to
    [60 * w * T]. *)
Lemma pace_floor (w t MX T : Z) :
  0 <= w -> 0 < t -> 0 < T ->
  16 * Z.abs (MX * t - 60 * w * T) <= 23 * t ->
  23 * t < 16 * T ->
  MX / T = 60 * w / t \/
  (MX / T = 60 * w / t - 1 /\ (60 * w) mod t = 0).
Proof.
  intros Hw Ht HT Herr Hbig.
  pose proof (Z.div_mod (60 * w) t ltac:(lia)) as Hdm.
  pose proof (Z.mod_pos_bound (60 * w) t ltac:(lia)) as Hmod.
  set (n := 60 * w / t) in *. set (r := (60 * w) mod t) in *.
  assert (60 * w * T = t * n * T + r * T) as HwT by (rewrite Hdm; ring).
  destruct (Z.eq_dec r 0) as [Hr0 | Hr0].
  - assert ((n - 1) * T < MX < (n + 1) * T) as [Hlo Hhi].
    { split; apply (Z.mul_lt_mono_pos_r t); nia. }
    destruct (Z.lt_ge_cases MX (n * T)) as [Hlt | Hge].
    + right. split; [| exact Hr0].
      symmetry. apply (Z.div_unique MX T (n - 1) (MX - (n - 1) * T)); lia.
    + left. symmetry.
      apply (Z.div_unique MX T n (MX - n * T)); lia.
  - left.
    assert (n * T <= MX < (n + 1) * T) as [Hlo Hhi].
    { split; [apply (Z.mul_le_mono_pos_r _ _ t) |
              apply (Z.mul_lt_mono_pos_r t)]; nia. }
    symmetry. apply (Z.div_unique MX T n (MX - n * T)); lia.
Qed.

(** The unit in the last place of the product is small against one
    second's share: the mantissa has 53 digits and the pace is below
    2^51. *)
Lemma pace_scale (w t MX T : Z) :
  0 <= w < 2 ^ 45 -> 0 < t -> 2 ^ 52 <= MX -> 0 <= T ->
  16 * Z.abs (MX * t - 60 * w * T) <= 23 * t ->
  23 * t < 16 * T.
Proof.
  intros Hw Ht HMX HT Herr.
  change (2 ^ 45) with 35184372088832 in Hw.
  change (2 ^ 52) with 4503599627370496 in HMX.
  destruct (Z.lt_ge_cases (23 * t) (16 * T)) as [| Hle]; [assumption |].
  exfalso.
  assert (w * (16 * T) <= w * (23 * t))
    by (apply Z.mul_le_mono_nonneg_l; lia).
  assert (4503599627370496 * t <= MX * t)
    by (apply Z.mul_le_mono_nonneg_r; lia).
  assert (w * t <= 35184372088831 * t)
    by (apply Z.mul_le_mono_nonneg_r; lia).
  lia.
Qed.

(** The exponent of the product is negative. *)
Lemma pace_exponent (w t MX G V : Z) :
  0 <= w < 2 ^ 45 -> 1 <= t -> 2 ^ 52 <= MX -> 0 < V <= G ->
  16 * Z.abs (MX * t * G - 60 * w * V) <= 23 * t * G ->
  False.
Proof.
  intros Hw Ht HMX HV Herr.
  change (2 ^ 45) with 35184372088832 in Hw.
  change (2 ^ 52) with 4503599627370496 in HMX.
  assert (w * V <= w * G) by (apply Z.mul_le_mono_nonneg_l; lia).
  assert (0 < t * G) as HtG by nia.
  assert (G <= t * G) by nia.
  assert (4503599627370496 * (t * G) <= MX * (t * G))
    by (apply Z.mul_le_mono_nonneg_r; lia).
  assert (w * G <= 35184372088831 * G)
    by (apply Z.mul_le_mono_nonneg_r; lia).
  replace (MX * t * G) with (MX * (t * G)) in Herr by ring.
  replace (23 * t * G) with (23 * (t * G)) in Herr by ring.
  replace (60 * w * V) with (60 * (w * V)) in Herr by ring.
  lia.
Qed.

(** The pace that [int((word_count / recording_time) * 60)] computes in
    binary64, for every count of words below 2^45 and every positive
    recording time: the integer part of [60 * words / seconds], or one
    less when that quotient is whole. *)
Lemma speaking_pace_of_floor (w t : Z) :
  0 <= w < 2 ^ 45 -> 1 <= t ->
  exists p,
    speaking_pace_of w t = inr p /\
    (p = 60 * w / t \/ (p = 60 * w / t - 1 /\ (60 * w) mod t = 0)).
Proof.
  intros Hw Ht. unfold speaking_pace_of, truediv.
  destruct (Z.eqb_spec t 0) as [| _]; [lia |].
  destruct (Z.eq_dec w 0) as [-> | Hw0].
  - (* no word *)
    cbn [int_truediv_SF].
    replace (t <? 0) with false by (symmetry; apply Z.ltb_ge; lia).
    unfold mret, result_ret. rewrite result_bind_inr. unfold py_int.
    rewrite mul_spec, float_of_60, Prim2SF_SF2Prim by reflexivity.
    exists 0. split; [reflexivity |]. left.
    rewrite Z.mul_0_r, Z.div_0_l by lia. reflexivity.
  - destruct (Zdigits2_bounds w ltac:(lia)) as [Hwb Hdw].
    destruct (Zdigits2_bounds t ltac:(lia)) as [Htb Hdt].
    pose proof (Zdigits2_below w 45 ltac:(lia) ltac:(lia)) as Hdw45.
    destruct (Z.le_gt_cases (-1021) (Zdigits2 w - Zdigits2 t))
      as [Hnormal | Htiny].
    + (* the quotient is a normal float *)
      destruct (int_truediv_nearest w t ltac:(lia) ltac:(lia) ltac:(lia))
        as (mq & kq & Hq & Hkq & Hdq & Hiq).
      rewrite Hq. unfold mret, result_ret. rewrite result_bind_inr.
      unfold py_int.
      assert (Prim2SF (SF2Prim (S754_finite false mq
                (Zdigits2 w - Zdigits2 t - 53 + kq)))
              = S754_finite false mq (Zdigits2 w - Zdigits2 t - 53 + kq))
        as Hq' by (apply Prim2SF_SF2Prim, valid_normal; [assumption | lia]).
      destruct (mul_nearest _ _ mq 8444249301319680 _ _ Hq' float_of_60 Hdq
                  ltac:(reflexivity) ltac:(lia))
        as (mx & kx & Hx & Hkx & Hmx & Hix).
      rewrite Hx. clear Hx Hq Hq'.
      set (s := 53 + Zdigits2 t - Zdigits2 w) in *.
      replace (Zdigits2 w - Zdigits2 t - 53 + kq + -47 + kx)
        with (- (s + 47 - kq - kx)) by lia.
      set (Ex := s + 47 - kq - kx).
      assert (0 < 2 ^ kq) as HKq by (apply Z.pow_pos_nonneg; lia).
      assert (2 ^ 52 <= 2 ^ kx) as HK by (apply Z.pow_le_mono_r; lia).
      change (Zpos 8444249301319680) with (60 * 2 ^ 47) in Hix.
      pose proof (pace_error w t (Zpos mq) (Zpos mx) (2 ^ s)
                    (2 ^ kq) (2 ^ kx) ltac:(lia) HKq HK Hiq Hix) as Herr.
      assert (2 ^ kq * 2 ^ kx = 2 ^ (kq + kx)) as HG
        by (rewrite Z.pow_add_r by lia; reflexivity).
      assert (2 ^ s * 2 ^ 47 = 2 ^ (s + 47)) as HV
        by (rewrite Z.pow_add_r by lia; reflexivity).
      rewrite HG, HV in Herr.
      assert (0 < 2 ^ (kq + kx)) as HGpos by (apply Z.pow_pos_nonneg; lia).
      assert (0 < 2 ^ (s + 47)) as HVpos by (apply Z.pow_pos_nonneg; lia).
      assert (0 < Ex) as HEx.
      { destruct (Z.lt_ge_cases 0 Ex) as [| Hle]; [assumption | exfalso].
        assert (2 ^ (s + 47) <= 2 ^ (kq + kx))
          by (apply Z.pow_le_mono_r; unfold Ex in Hle; lia).
        apply (pace_exponent w t (Zpos mx) (2 ^ (kq + kx)) (2 ^ (s + 47)));
          lia. }
      rewrite trunc_SF_below_one_ulp by lia.
      replace (- - Ex) with Ex by lia.
      assert (2 ^ (s + 47) = 2 ^ Ex * 2 ^ (kq + kx)) as HT
        by (rewrite <- Z.pow_add_r by lia; f_equal; unfold Ex; lia).
      assert (0 < 2 ^ Ex) as HTpos by (apply Z.pow_pos_nonneg; lia).
      rewrite HT in Herr.
      set (G := 2 ^ (kq + kx)) in *. set (T := 2 ^ Ex) in *.
      assert (16 * Z.abs (Zpos mx * t - 60 * w * T) <= 23 * t) as Hclose.
      { apply (Z.mul_le_mono_pos_r _ _ G); [exact HGpos |].
        replace (16 * Z.abs (Zpos mx * t - 60 * w * T) * G)
          with (16 * Z.abs (Zpos mx * t * G - 60 * w * (T * G))).
        - lia.
        - replace (Zpos mx * t * G - 60 * w * (T * G))
            with ((Zpos mx * t - 60 * w * T) * G) by ring.
          rewrite Z.abs_mul, (Z.abs_eq G) by lia. ring. }
      assert (23 * t < 16 * T) as Hbig
        by (apply (pace_scale w t (Zpos mx)); lia).
      exists (Zpos mx / T). split; [reflexivity |].
      apply pace_floor; lia.
    + (* the quotient is below the normal floats, and the pace is zero *)
      assert (60 * w / t = 0) as Hfloor.
      { apply Z.div_small. split; [lia |].
        assert (2 ^ (Zdigits2 w + 6) <= 2 ^ (Zdigits2 t - 1))
          by (apply Z.pow_le_mono_r; lia).
        assert (2 ^ (Zdigits2 w + 6) = 64 * 2 ^ Zdigits2 w)
          by (rewrite Z.pow_add_r by lia; change (2 ^ 6) with 64; ring).
        lia. }
      rewrite Hfloor. exists 0. split; [| left; reflexivity].
      destruct (int_truediv_tiny w t ltac:(lia) ltac:(lia) ltac:(lia))
        as [Hq | (mq & eq & Hq & Hvalid & Heq & Hmq)];
        rewrite Hq; unfold mret, result_ret; rewrite result_bind_inr;
        unfold py_int; rewrite mul_spec, float_of_60, Prim2SF_SF2Prim
          by assumption || reflexivity.
      * reflexivity.
      * unfold SF64mul. cbn [SFmul xorb]. rewrite Pos2Z.inj_mul.
        rewrite (binary_round_aux_below_one _ _
                   (Zpos mq * Zpos 8444249301319680) 1); [reflexivity | | | |].
        -- lia.
        -- lia.
        -- assert (Zdigits2 (Zpos mq * Zpos 8444249301319680) <= 106).
           { apply Zdigits2_below; [| lia].
             change (2 ^ 106) with (2 ^ 53 * 2 ^ 53).
             assert (Zpos 8444249301319680 < 2 ^ 53) by reflexivity.
             nia. }
           lia.
        -- unfold brackets. cbn. lia.
Qed.


Section PaceFacts.
Context `{Runtime}.

(** C4, as the code has it.  The pace is [int((word_count /
    recording_time) * 60)]: the binary64 product truncated toward zero,
    not rounded to the nearest integer.  For every positive recording
    time and every transcript of fewer than 2^45 whitespace-separated
    words the code returns the integer part of
    [60 * word_count / seconds], or one less; it returns the integer
    part itself whenever the quotient is not a whole number; and 150
    words in 60 seconds give 150. *)
Theorem speaking_pace_truncates (text : pystr) (seconds : Z) :
  1 <= seconds ->
  word_count_of text < 2 ^ 45 ->
  exists p,
    speaking_pace_of (word_count_of text) seconds = inr p /\
    (60 * word_count_of text) / seconds - 1 <= p
      <= (60 * word_count_of text) / seconds /\
    ((60 * word_count_of text) mod seconds <> 0 ->
     p = (60 * word_count_of text) / seconds) /\
    (word_count_of text = 150 -> seconds = 60 -> p = 150).
Proof.
  intros Hs Hw.
  assert (0 <= word_count_of text) as Hw0 by (unfold word_count_of; lia).
  destruct (speaking_pace_of_floor (word_count_of text) seconds
              (conj Hw0 Hw) Hs) as (p & Hp & Hfloor).
  exists p. split; [exact Hp |].
  set (n := 60 * word_count_of text / seconds) in *.
  split; [destruct Hfloor as [-> | [-> _]]; lia |].
  split; [intros Hmod; destruct Hfloor as [-> | [_ Hz]]; [reflexivity | contradiction] |].
  intros Hw150 ->. rewrite Hw150 in Hp.
  assert (speaking_pace_of 150 60 = inr 150) as H150
    by (vm_compute; reflexivity).
  congruence.
Qed.

End PaceFacts.

(** C4 witness: three words in seven seconds. *)
Lemma speaking_pace_truncates_witness :
  exists p,
    speaking_pace_of (@word_count_of ascii_runtime (py "so it goes")) 7
    = inr p /\
    (60 * @word_count_of ascii_runtime (py "so it goes")) / 7 - 1 <= p
      <= (60 * @word_count_of ascii_runtime (py "so it goes")) / 7 /\
    ((60 * @word_count_of ascii_runtime (py "so it goes")) mod 7 <> 0 ->
     p = (60 * @word_count_of ascii_runtime (py "so it goes")) / 7) /\
    (@word_count_of ascii_runtime (py "so it goes") = 150 -> 7 = 60 ->
     p = 150).
Proof.
  apply (@speaking_pace_truncates ascii_runtime (py "so it goes") 7).
  - vm_compute. discriminate.
  - vm_compute. reflexivity.
Defined.

(** C4, as the spec states it, fails: one word in seven seconds is 8.57
    words a minute, and the code returns 8 where the nearest integer is
    9.  The count of 150 words in 60 seconds does give 150.  Nor is the
    pace always the integer part: 49 words in 3 seconds are exactly 980
    words a minute and the code returns 979; and past 2^45 words it can
    lie above the quotient, 61 for a quotient just below 61. *)
Lemma speaking_pace_is_not_rounded :
  @word_count_of ascii_runtime (py "hello") = 1 /\
  speaking_pace_of 1 7 = inr 8 /\
  ~ nearest_to_words_per_minute 1 7 8 /\
  nearest_to_words_per_minute 1 7 9 /\
  speaking_pace_of 150 60 = inr 150 /\
  speaking_pace_of 49 3 = inr 979 /\ 60 * 49 = 980 * 3 /\
  speaking_pace_of 99542059746160 97910222701141 = inr 61 /\
  60 * 99542059746160 / 97910222701141 = 60 /\
  2 ^ 45 <= 99542059746160 < 2 ^ 53 /\ 97910222701141 < 2 ^ 53.
Proof.
  split; [reflexivity |]. split; [vm_compute; reflexivity |].
  unfold nearest_to_words_per_minute.
  split; [simpl; lia |]. split; [simpl; lia |].
  repeat split; vm_compute; congruence.
Qed.

(** ** The filler words *)

Section FillerFacts.
Context `{Runtime}.

(** *** What the spec calls an occurrence *)





(** *** The matcher against the occurrences *)










(** *** The dictionary *)








(** *** Case *)







End FillerFacts.


(* ===================================================================== *)
(** * Part III.  More of the code                                        *)
(* ===================================================================== *)

(** ** Vocabulary for the runs *)

(** The file events among the events. *)
Definition file_events (tr : list event) : list event :=
  List.filter (fun ev => match ev with
                         | FileWrite _ _ | FileRemove _ => true
                         | _ => false
                         end) tr.

(** The request with another [Authorization] header. *)
Definition with_authorization (request : VoiceAnalysisRequest)
  (header : option pystr) : VoiceAnalysisRequest :=
  {| authorization := header;
     audio_base64 := audio_base64 request;
     user_id := user_id request;
     recording_mode := recording_mode request;
     recording_time := recording_time request |}.

(** ** [str.replace] *)

Lemma replace_from_skip (old new l s : pystr) :
  replace_from old new (l ++ s) (length l) = replace_from old new s O.
Proof. induction l as [| c l IH]; [reflexivity | exact IH]. Qed.

Lemma starts_with_app (old s : pystr) : starts_with old (old ++ s) = true.
Proof.
  induction old as [| c old IH]; [reflexivity |].
  simpl. by rewrite N.eqb_refl, IH.
Qed.

(** An occurrence at the very start is replaced, and the scan goes on
    behind it. *)
Lemma str_replace_prefix (old new s : pystr) :
  old <> [] ->
  str_replace old new (old ++ s) = new ++ str_replace old new s.
Proof.
  intros Hne. unfold str_replace. destruct old as [| c old]; [done |].
  change ((c :: old) ++ s) with (c :: (old ++ s)).
  cbn [replace_from].
  change (c :: old ++ s) with ((c :: old) ++ s).
  rewrite starts_with_app. cbn [length pred].
  by rewrite replace_from_skip.
Qed.

(** One step through a sequence of calls. *)
Ltac step_bind H :=
  cbv beta iota in H; unfold mret, result_ret in H;
  rewrite ?result_bind_inr in H.

Section BackendExtras.
Context `{Runtime} `{Services}.

(** ** Authentication *)

(** X1.  The header "Bearer <token>" and the bare header "<token>" are the
    same to [get_current_user]: the prefix is removed when it is there
    and not asked for when it is not. *)
Theorem bearer_prefix_is_optional (request : VoiceAnalysisRequest)
  (token : pystr) :
  get_current_user
    (with_authorization request (Some (py "Bearer " ++ token)))
  = get_current_user (with_authorization request (Some token)).
Proof.
  unfold get_current_user, with_authorization. cbn [authorization].
  rewrite str_replace_prefix by discriminate. reflexivity.
Qed.

(** ** The usage limit *)

(** X2.  A user at the limit is refused before anything happens: the
    endpoint raises HTTP 403 with the reason, writes nothing to the
    database or the disk and logs nothing; the processing screen then
    shows the upgrade message. *)
Theorem usage_limit_refuses_without_effect (request : VoiceAnalysisRequest)
  (user user' : User.t) :
  get_current_user request = inr user ->
  users_find_one (PStr (User.id user)) = Some user' ->
  (if default false (User.isPremium user')
   then 30 <= count_this_month (User.id user)
   else 5 <= count_total (User.id user)) ->
  analyze_voice request = ([], inl (HTTPException 403 (py "Limit reached"))) /\
  processing_error (Some (response_status (snd (analyze_voice request))))
  = "Usage limit reached. Upgrade to premium."%string.
Proof.
  intros Hu Hf Hlim.
  assert (authorize request = inl (HTTPException 403 (py "Limit reached")))
    as Hauth.
  { unfold authorize. rewrite Hu, result_bind_inr.
    unfold check_can_create_assessment. rewrite Hf.
    destruct (default false (User.isPremium user')).
    - apply Z.leb_le in Hlim. rewrite Hlim. reflexivity.
    - apply Z.leb_le in Hlim. rewrite Hlim. reflexivity. }
  assert (analyze_voice request
          = ([], inl (HTTPException 403 (py "Limit reached")))) as Hrun.
  { unfold analyze_voice. rewrite Hauth. reflexivity. }
  split; [exact Hrun |]. rewrite Hrun. reflexivity.
Qed.

(** ** A request without its header *)

(** X4.  A request with no [Authorization] header is not answered 401: the
    [AttributeError] of [get_current_user] reaches the handler, which
    logs it and then fails on the unassigned [assessment_id]; the
    response has status 500 and the processing screen shows the general
    failure, not the request to log in. *)
Theorem missing_header_is_not_401 (request : VoiceAnalysisRequest) :
  authorization request = None ->
  exists msg,
    analyze_voice request
    = ([Log ERROR (py "Error: " ++
                   py "'NoneType' object has no attribute 'replace'")],
       inl (PyError "UnboundLocalError" msg)) /\
    response_status (snd (analyze_voice request)) = 500 /\
    processing_error (Some (response_status (snd (analyze_voice request))))
    = "Processing failed. Try again."%string.
Proof.
  intros Hnone.
  assert (authorize request
          = inl (PyError "AttributeError"
                   (py "'NoneType' object has no attribute 'replace'")))
    as Hauth.
  { unfold authorize, get_current_user. rewrite Hnone. reflexivity. }
  unfold analyze_voice. rewrite Hauth. eexists.
  split; [reflexivity |]. split; reflexivity.
Qed.

(** ** A run that succeeds *)

(** The path of the temporary audio file. *)
Definition temp_audio_path_of (assessment_id : pystr) : pystr :=
  gettempdir ++ py "/" ++ assessment_id ++ py ".m4a".

(** X5.  When every step succeeds the endpoint logs nothing, writes the
    audio to the temporary file and removes it again, and makes three
    database writes: the new assessment with [processed] false, the
    update that stores the transcription and the analysis and sets
    [processed] true, and the training questions.  The response carries
    the assessment id and the status "completed". *)
Theorem successful_run (request : VoiceAnalysisRequest) (user : User.t)
  (bytes : list N) (transcription : pystr) (analysis : gmap pystr pyval)
  (questions : pyval) :
  authorize request = inr user ->
  b64decode (audio_base64 request) = inr bytes ->
  transcriptions_create bytes = inr transcription ->
  analyze_transcription transcription (recording_time request)
  = inr analysis ->
  generate_training_questions analysis transcription = inr questions ->
  exists tr response created filter stored asked,
    analyze_voice request = (tr, inr response) /\
    logs tr = [] /\
    file_events tr = [FileWrite (temp_audio_path_of uuid4) bytes;
                      FileRemove (temp_audio_path_of uuid4)] /\
    db_writes tr = [DbInsert "assessments" created;
                    DbUpdate "assessments" filter stored;
                    DbInsert "training_questions" asked] /\
    created !! py "processed" = Some (PBool false) /\
    created !! py "audio_data" = Some (PStr (audio_base64 request)) /\
    filter = {[ py "assessment_id" := PStr uuid4 ]} /\
    stored !! py "processed" = Some (PBool true) /\
    stored !! py "transcription" = Some (PStr transcription) /\
    stored !! py "analysis" = Some (PDict analysis) /\
    asked !! py "questions" = Some questions /\
    response !! py "assessment_id" = Some (PStr uuid4) /\
    response !! py "status" = Some (PStr (py "completed")).
Proof.
  intros Hauth Hdec Htr Han Hq.
  unfold analyze_voice. rewrite Hauth.
  unfold process, call, emit, mbind, io_bind.
  rewrite Hdec. cbv beta iota zeta. rewrite Htr. cbv beta iota zeta.
  rewrite Han. cbv beta iota zeta. rewrite Hq. cbv beta iota zeta.
  do 6 eexists. split; [reflexivity |].
  split; [reflexivity |]. split; [reflexivity |]. split; [reflexivity |].
  repeat split; by simplify_map_eq.
Qed.

(** ** Failures after the audio was written *)

(** X6.  When the transcription raises, the temporary file that was written
    is never removed: the file events of the run are the write alone. *)
Theorem failed_transcription_leaves_the_file (request : VoiceAnalysisRequest)
  (user : User.t) (bytes : list N) (cls : string) (msg : pystr) :
  authorize request = inr user ->
  b64decode (audio_base64 request) = inr bytes ->
  transcriptions_create bytes = inl (PyError cls msg) ->
  exists tr,
    analyze_voice request = (tr, inl (HTTPException 500 msg)) /\
    file_events tr = [FileWrite (temp_audio_path_of uuid4) bytes].
Proof.
  intros Hauth Hdec Htr.
  unfold analyze_voice. rewrite Hauth.
  unfold process, call, emit, mbind, io_bind.
  rewrite Hdec. cbv beta iota zeta. rewrite Htr. cbv beta iota zeta.
  eexists. split; reflexivity.
Qed.

(** X7.  A recording time of zero makes the run fail, whatever was said: the
    division raises before the model is asked, and the endpoint answers
    500 with the text "division by zero". *)
Theorem zero_recording_time_fails (request : VoiceAnalysisRequest)
  (user : User.t) (bytes : list N) (transcription : pystr) :
  authorize request = inr user ->
  b64decode (audio_base64 request) = inr bytes ->
  transcriptions_create bytes = inr transcription ->
  recording_time request = 0 ->
  analyze_transcription transcription (recording_time request)
  = inl (PyError "ZeroDivisionError" (py "division by zero")) /\
  exists tr,
    analyze_voice request
    = (tr, inl (HTTPException 500 (py "division by zero"))) /\
    logs tr = [(ERROR, py "Error: " ++ py "division by zero")].
Proof.
  intros Hauth Hdec Htr Hzero.
  assert (analyze_transcription transcription (recording_time request)
          = inl (PyError "ZeroDivisionError" (py "division by zero")))
    as Han.
  { rewrite Hzero. reflexivity. }
  split; [exact Han |].
  destruct (process_analysis_raises request user uuid4 bytes transcription
              _ Hdec Htr Han) as (tr & Hproc & Hlogs).
  eexists. split; [eauto using analyze_voice_process_raises |].
  rewrite logs_app, Hlogs. reflexivity.
Qed.

(** ** The training questions *)

(** X8.  [generate_training_questions] returns at most ten questions: when
    it returns a list, that list is the first ten entries of the list
    under "questions" in the model's JSON answer. *)
Theorem at_most_ten_questions (analysis : gmap pystr pyval)
  (transcription : pystr) (l : list pyval) :
  generate_training_questions analysis transcription = inr (PList l) ->
  (length l <= 10)%nat /\
  exists archetype improvements content g all,
    analysis !! py "archetype" = Some archetype /\
    analysis !! py "improvements" = Some improvements /\
    chat_completions_create (py "You are a communication coach.")
      (questions_prompt archetype improvements) = inr content /\
    json_loads content = inr (PDict g) /\
    g !! py "questions" = Some (PList all) /\
    l = take 10 all.
Proof.
  unfold generate_training_questions, getitem. intros Hrun.
  destruct (analysis !! py "archetype") as [archetype |] eqn:Ha;
    [| discriminate].
  step_bind Hrun.
  destruct (analysis !! py "improvements") as [improvements |] eqn:Hi;
    [| discriminate].
  step_bind Hrun.
  destruct (chat_completions_create _ (questions_prompt archetype improvements))
    as [e | content] eqn:Hchat; [discriminate |].
  step_bind Hrun.
  destruct (json_loads content) as [e | parsed] eqn:Hjson; [discriminate |].
  step_bind Hrun.
  destruct parsed as [| | | | | | g]; try discriminate.
  unfold py_getitem, getitem in Hrun.
  destruct (g !! py "questions") as [qs |] eqn:Hqs; [| discriminate].
  step_bind Hrun.
  destruct qs as [| | | | | all | d]; try discriminate;
    [| unfold py_slice_to in Hrun; destruct (dict_slice_error 10);
       discriminate].
  injection Hrun as <-.
  split; [rewrite length_take; lia |].
  exists archetype, improvements, content, g, all. done.
Qed.

(** X9.  An analysis without an archetype cannot be followed by training
    questions: the lookup raises [KeyError], and the run that got as far
    as the analysis ends in HTTP 500 with the text "'archetype'". *)
Theorem missing_archetype_fails_the_run (request : VoiceAnalysisRequest)
  (user : User.t) (bytes : list N) (transcription : pystr)
  (analysis : gmap pystr pyval) :
  authorize request = inr user ->
  b64decode (audio_base64 request) = inr bytes ->
  transcriptions_create bytes = inr transcription ->
  analyze_transcription transcription (recording_time request)
  = inr analysis ->
  analysis !! py "archetype" = None ->
  exists tr,
    analyze_voice request
    = (tr, inl (HTTPException 500 (repr_str (py "archetype")))) /\
    db_writes tr
    = [DbInsert "assessments"
         (<[py "assessment_id" := PStr uuid4]>
            (<[py "user_id" := PStr (User.id user)]>
               (<[py "audio_data" := PStr (audio_base64 request)]>
                  (<[py "processed" := PBool false]>
                     {[ py "created_at" := utcnow 0 ]}))));
       error_update uuid4 (repr_str (py "archetype"))].
Proof.
  intros Hauth Hdec Htr Han Hnone.
  unfold analyze_voice. rewrite Hauth.
  unfold process, call, emit, mbind, io_bind.
  rewrite Hdec. cbv beta iota zeta. rewrite Htr. cbv beta iota zeta.
  rewrite Han. cbv beta iota zeta.
  unfold generate_training_questions, getitem. rewrite Hnone.
  eexists. split; reflexivity.
Qed.

End BackendExtras.

(** ** The words of a transcript *)

Section SplitFacts.
Context `{Runtime}.

Definition no_space (w : pystr) : Prop := forallb (fun c => negb (isspace c)) w = true.

Lemma no_space_rev (w : pystr) : no_space w -> no_space (rev w).
Proof.
  unfold no_space. rewrite !forallb_forall. intros Hw c Hc.
  apply Hw. by apply in_rev.
Qed.

Lemma split_from_tokens (cur s : pystr) :
  no_space cur ->
  Forall (fun w => w <> [] /\ no_space w) (split_from cur s).
Proof.
  revert cur. induction s as [| c s IH]; intros cur Hcur.
  - destruct cur as [| a cur]; [constructor |].
    constructor; [| constructor]. split; [| by apply no_space_rev].
    intros Hnil. apply (f_equal length) in Hnil.
    rewrite length_rev in Hnil. discriminate.
  - cbn [split_from]. destruct (isspace c) eqn:Hc.
    + destruct cur as [| a cur]; [by apply IH |].
      constructor; [| by apply IH]. split; [| by apply no_space_rev].
      intros Hnil. apply (f_equal length) in Hnil.
      rewrite length_rev in Hnil. discriminate.
    + apply IH. unfold no_space in *. cbn [forallb]. by rewrite Hc, Hcur.
Qed.

Lemma split_from_concat (cur s : pystr) :
  concat (split_from cur s)
  = rev cur ++ List.filter (fun c => negb (isspace c)) s.
Proof.
  revert cur. induction s as [| c s IH]; intros cur.
  - destruct cur as [| a cur]; [reflexivity |].
    cbn [split_from concat List.filter]. by rewrite !app_nil_r.
  - cbn [split_from List.filter]. destruct (isspace c) eqn:Hc; cbn [negb].
    + destruct cur as [| a cur]; [by rewrite IH |].
      cbn [concat]. by rewrite IH.
    + rewrite IH. cbn [rev]. by rewrite <- app_assoc.
Qed.

(** X10.  [text.split()] loses nothing but whitespace: every token is
    non-empty and free of whitespace, the tokens joined are the
    transcript with its whitespace removed, and the word count is zero
    exactly for a transcript that is empty or all whitespace. *)
Theorem str_split_tokens (text : pystr) :
  Forall (fun w => w <> [] /\ no_space w) (str_split text) /\
  concat (str_split text) = List.filter (fun c => negb (isspace c)) text /\
  (word_count_of text = 0 <-> forallb isspace text = true).
Proof.
  pose proof (split_from_tokens [] text eq_refl) as Htok.
  pose proof (split_from_concat [] text) as Hcat.
  split; [exact Htok |]. split; [exact Hcat |].
  unfold word_count_of. fold (str_split text) in Htok, Hcat.
  unfold str_split in *. cbn [rev app] in Hcat.
  split.
  - intros Hzero.
    destruct (split_from [] text) as [| w ws] eqn:Hs; [| simpl in Hzero; lia].
    cbn [concat] in Hcat. rewrite forallb_forall. intros c Hc.
    destruct (isspace c) eqn:Hsp; [reflexivity |].
    assert (In c (List.filter (fun c => negb (isspace c)) text)) as Hin
      by (apply filter_In; by rewrite Hsp).
    rewrite <- Hcat in Hin. destruct Hin.
  - intros Hall.
    destruct (split_from [] text) as [| w ws] eqn:Hs; [reflexivity |].
    exfalso. apply Forall_cons in Htok as [[Hw _] _].
    destruct w as [| c w]; [done |].
    assert (In c (concat ((c :: w) :: ws))) as Hin by (left; reflexivity).
    rewrite Hcat in Hin. apply filter_In in Hin as [Hin Hc].
    rewrite forallb_forall in Hall. by rewrite (Hall c Hin) in Hc.
Qed.

End SplitFacts.

(** ** The timer of the tests *)

Section TimerTests.
Import Recorder.

Lemma iterate_stop (n : nat) (r : t) :
  shouldStop r = (120 <=? recordingTime r) ->
  shouldStop (iterate n r) = (120 <=? recordingTime r + Z.of_nat n).
Proof.
  revert r. induction n as [| n IH]; intros r Hr.
  - cbn [iterate]. rewrite Hr. f_equal. lia.
  - cbn [iterate]. rewrite IH.
    + cbn [incrementTime recordingTime]. f_equal. lia.
    + cbn [incrementTime recordingTime shouldStop]. rewrite Hr.
      destruct (Z.leb_spec 120 (recordingTime r + 1)); [reflexivity |].
      apply Z.leb_gt. lia.
Qed.

(** X11.  The two timer tests, for every number of calls: after [n] calls of
    [incrementTime] the time is [n] and the stop flag is raised exactly
    when [n] is at least 120.  [incrementTime] itself does not cap the
    time: called again after the flag is raised it goes on counting. *)
Theorem incrementTime_counts_and_flags (n : nat) :
  recordingTime (iterate n init) = Z.of_nat n /\
  (shouldStop (iterate n init) = true <-> 120 <= Z.of_nat n) /\
  recordingTime (incrementTime (iterate n init)) = Z.of_nat n + 1.
Proof.
  pose proof (iterate_time n init) as Ht.
  pose proof (iterate_stop n init eq_refl) as Hs.
  cbn [init recordingTime] in Ht, Hs. rewrite Z.add_0_l in Ht, Hs.
  split; [exact Ht |]. split.
  - rewrite Hs. apply Z.leb_le.
  - cbn [incrementTime recordingTime]. by rewrite Ht.
Qed.

End TimerTests.

(** ** The display of times and errors *)

(** The digit [d] as a character. *)
Definition digit (d : Z) : ascii := ascii_of_N (Z.to_N (48 + d)).

(** The display "m:ss". *)
Definition m_ss (seconds : Z) : string :=
  String (digit (seconds / 60))
    (String ":"
       (String (digit (seconds mod 60 / 10))
          (String (digit (seconds mod 10)) EmptyString))).

Lemma formatTime_checked :
  all_from 600 0 (fun s => String.eqb (ApiTests.formatTime s) (m_ss s)) = true.
Proof. vm_compute. reflexivity. Qed.

(** X12.  Below ten minutes, and so for every time the recorder can reach,
    [formatTime] writes exactly "m:ss": one digit of minutes, a colon,
    and the seconds below 60 in two digits. *)
Theorem formatTime_m_ss (seconds : Z) :
  0 <= seconds < 600 -> ApiTests.formatTime seconds = m_ss seconds.
Proof.
  intros Hs. apply String.eqb_eq.
  apply (all_from_spec _ _ _ formatTime_checked seconds). lia.
Qed.

(** X13.  [getErrorMessage] gives an empty message in one case only: a status
    other than 401, 403 and 429 with the empty string as detail. *)
Theorem getErrorMessage_empty (status : Z) (detail : option ApiTests.Detail) :
  ApiTests.getErrorMessage status detail = ""%string <->
  status <> 401 /\ status <> 403 /\ status <> 429 /\
  detail = Some (ApiTests.DetailString "").
Proof.
  unfold ApiTests.getErrorMessage.
  destruct (Z.eqb_spec status 401) as [-> | H401];
    [split; [discriminate | intros [? _]; done] |].
  destruct (Z.eqb_spec status 403) as [-> | H403].
  { split; [| intros (_ & ? & _); done].
    destruct detail as [[s | [[| c m] |]] |]; discriminate. }
  destruct (Z.eqb_spec status 429) as [-> | H429];
    [split; [discriminate | intros (_ & _ & ? & _); done] |].
  destruct detail as [[s | [[| c m] |]] |]; cbn.
  - split; [intros ->; done | intros (_ & _ & _ & [= ->]); done].
  - split; [discriminate | intros (_ & _ & _ & ?); discriminate].
  - split; [discriminate | intros (_ & _ & _ & ?); discriminate].
  - split; [discriminate | intros (_ & _ & _ & ?); discriminate].
  - split; [discriminate | intros (_ & _ & _ & ?); discriminate].
Qed.

(** ** The result screens, continued *)

Section ScreenExtras.

(** What a value of the screen may show for a field with a preferred and
    a legacy place: the preferred number, the legacy number when the
    preferred is absent, or "N/A" when both are. *)
Definition shows (n : node) (preferred legacy : option jsnum) : Prop :=
  match n with
  | Num x => preferred = Some x \/ (preferred = None /\ legacy = Some x)
  | Txt s => s = "N/A"%string /\ preferred = None /\ legacy = None
  | NumTxt _ _ => False
  end.

Lemma num_or_text_shows (preferred legacy : option jsnum) :
  shows (num_or_text (nullish preferred legacy) "N/A") preferred legacy.
Proof. destruct preferred, legacy; simpl; auto. Qed.

(** X14.  [results.tsx] never makes a number up: overall score, clarity,
    confidence and pace each show the stored number (a stored 0 is shown
    as 0), the one under [insights] or [metrics] first, and "N/A" only
    when the analysis has neither. *)
Theorem results_screen_shows_stored_numbers (a : Assessment.t) :
  let an := Assessment.analysis a in
  let i := opt_chain an VoiceAnalysis.insights in
  let m := opt_chain an VoiceAnalysis.metrics in
  shows (ResultsScreen.scoreValue (ResultsScreen.view a))
        (opt_chain i VoiceInsights.overall_score)
        (opt_chain an VoiceAnalysis.overall_score) /\
  shows (ResultsScreen.clarityValue (ResultsScreen.view a))
        (opt_chain i VoiceInsights.clarity_score)
        (opt_chain an VoiceAnalysis.clarity_score) /\
  shows (ResultsScreen.confidenceValue (ResultsScreen.view a))
        (opt_chain i VoiceInsights.confidence_score)
        (opt_chain an VoiceAnalysis.confidence_score) /\
  shows (ResultsScreen.wpmValue (ResultsScreen.view a))
        (opt_chain m VoiceMetrics.speaking_pace)
        (opt_chain an VoiceAnalysis.speaking_pace).
Proof. intros an i m. repeat split; apply num_or_text_shows. Qed.

(** X15.  [extractAnalysisDisplayValues] of [types/index.ts] and the
    extraction of [results.tsx] agree on every number and every list,
    for every analysis and for none; and [getOverallScore] is the
    overall score of both. *)
Theorem helpers_agree_with_results_screen (analysis : option VoiceAnalysis.t) :
  let t := Types.extractAnalysisDisplayValues analysis in
  let r := ResultsScreen.extract analysis in
  Types.overallScore t = ResultsScreen.overallScore r /\
  Types.clarityScore t = ResultsScreen.clarityScore r /\
  Types.confidenceScore t = ResultsScreen.confidenceScore r /\
  Types.speakingPace t = ResultsScreen.speakingPace r /\
  Types.pitchAvg t = ResultsScreen.pitchAvg r /\
  Types.fillerCount t = ResultsScreen.fillerCount r /\
  Types.fillerWords t = ResultsScreen.fillerWords r /\
  Types.strengths t = ResultsScreen.strengths r /\
  Types.improvements t = ResultsScreen.improvements r /\
  Types.getOverallScore analysis = ResultsScreen.overallScore r.
Proof.
  destruct analysis as [a |]; [| repeat split; reflexivity].
  cbn. repeat split; try reflexivity.
  by destruct (nullish _ _).
Qed.

(** X16.  They part on strings: an archetype stored as the empty string under
    [insights] is what [getArchetype] returns, where [results.tsx] goes
    on to the legacy archetype. *)
Theorem helpers_part_on_empty_strings (a : VoiceAnalysis.t)
  (i : VoiceInsights.t) (legacy : string) :
  VoiceAnalysis.insights a = Some i ->
  VoiceInsights.voice_personality i = Some ""%string ->
  VoiceAnalysis.archetype a = Some legacy ->
  legacy <> ""%string ->
  Types.getArchetype (Some a) = Some ""%string /\
  ResultsScreen.archetype (ResultsScreen.extract (Some a)) = Some legacy.
Proof.
  intros Hi Hv Hl Hne. unfold Types.getArchetype, ResultsScreen.extract.
  cbn. rewrite Hi. cbn. rewrite Hv, Hl. cbn.
  split; [reflexivity |]. by destruct legacy.
Qed.

(** X17.  The filler-word chart needs [filler_count]: when the analysis has no
    [filler_count] the section is not rendered, whatever [filler_words]
    holds. *)
Theorem filler_section_needs_filler_count (a : Assessment.t) :
  opt_chain (Assessment.analysis a) VoiceAnalysis.filler_count = None ->
  ResultsScreen.fillerSection (ResultsScreen.view a) = None.
Proof.
  intros Hnone. unfold ResultsScreen.view, ResultsScreen.extract.
  cbn [ResultsScreen.fillerSection ResultsScreen.fillerCount].
  rewrite Hnone. reflexivity.
Qed.

Lemma or_num_truthy (x y : option jsnum) (v : jsnum) :
  or_num x y = Some v -> truthy_num v = true \/ y = Some v.
Proof.
  unfold or_num. destruct x as [u |]; [| auto].
  destruct (truthy_num u) eqn:Hu; [| auto].
  intros [= <-]. auto.
Qed.

Lemma default_75_truthy (x y : option jsnum) :
  truthy_num (default 75%float (or_num x (or_num y None))) = true.
Proof.
  destruct (or_num x (or_num y None)) as [v |] eqn:Hv; [| reflexivity].
  cbn [default].
  apply or_num_truthy in Hv as [Hv | Hv]; [exact Hv |].
  apply or_num_truthy in Hv as [Hv | Hv]; [exact Hv | discriminate].
Qed.

(** X18.  [PersonalizedResults.tsx] never shows a score of zero or NaN: the
    number under its score circle is always truthy, a stored zero being
    replaced like a missing score. *)
Theorem PersonalizedResults_score_truthy (a : Assessment.t)
  (analysis : VoiceAnalysis.t) :
  truthy_num (PersonalizedResults.score
                (PersonalizedResults.extract a analysis)) = true.
Proof.
  unfold PersonalizedResults.extract. cbn [PersonalizedResults.score].
  apply default_75_truthy.
Qed.

(** X19.  The helper of the tests mirrors [PersonalizedResults.tsx], not
    [results.tsx]: for every analysis its overall score, strengths and
    improvements are those of [PersonalizedResults.tsx]; its overall
    score is always truthy, and is a stored score or the made-up 75. *)
Theorem test_helper_mirrors_PersonalizedResults (a : Assessment.t)
  (analysis : VoiceAnalysis.t) :
  let t := ApiTests.extractAnalysisValues (Some analysis) in
  let p := PersonalizedResults.extract a analysis in
  ApiTests.overallScore t = PersonalizedResults.score p /\
  ApiTests.strengths t = PersonalizedResults.strengths p /\
  ApiTests.improvements t = PersonalizedResults.growthOps p /\
  truthy_num (ApiTests.overallScore t) = true /\
  (opt_chain (VoiceAnalysis.insights analysis) VoiceInsights.overall_score
   = Some (ApiTests.overallScore t) \/
   VoiceAnalysis.overall_score analysis = Some (ApiTests.overallScore t) \/
   ApiTests.overallScore t = 75%float).
Proof.
  intros t p. subst t p.
  split; [reflexivity |]. split; [reflexivity |]. split; [reflexivity |].
  split.
  { unfold ApiTests.extractAnalysisValues. cbn [ApiTests.overallScore].
    apply default_75_truthy. }
  unfold ApiTests.extractAnalysisValues.
  cbn [ApiTests.overallScore opt_chain].
  destruct (opt_chain (VoiceAnalysis.insights analysis)
              VoiceInsights.overall_score) as [x |]; cbn [or_num].
  - destruct (truthy_num x); [by left |].
    destruct (VoiceAnalysis.overall_score analysis) as [y |]; cbn [or_num];
      [| by right; right].
    destruct (truthy_num y); [by right; left | by right; right].
  - destruct (VoiceAnalysis.overall_score analysis) as [y |]; cbn [or_num];
      [| by right; right].
    destruct (truthy_num y); [by right; left | by right; right].
Qed.

Lemma filter_partition {A} (f : A -> bool) (l : list A) :
  List.filter f l ++ List.filter (fun x => negb (f x)) l ≡ₚ l.
Proof.
  induction l as [| x l IH]; [reflexivity |].
  cbn [List.filter]. destruct (f x); cbn [negb app].
  - by constructor.
  - rewrite <- Permutation_middle. by constructor.
Qed.

(** X20.  The free and the locked questions of [PersonalizedResults.tsx] are
    the training questions, split in two: together they are a
    permutation of all questions, every free one is free and no locked
    one is; without training questions both are empty. *)
Theorem questions_split (a : Assessment.t) (analysis : VoiceAnalysis.t) :
  let v := PersonalizedResults.extract a analysis in
  Permutation
    (PersonalizedResults.freeQuestions v
     ++ PersonalizedResults.lockedQuestions v)
    (default [] (Assessment.training_questions a)) /\
  Forall (fun q => TrainingQuestion.is_free q = true)
         (PersonalizedResults.freeQuestions v) /\
  Forall (fun q => TrainingQuestion.is_free q = false)
         (PersonalizedResults.lockedQuestions v).
Proof.
  intros v. subst v. unfold PersonalizedResults.extract.
  cbn [PersonalizedResults.freeQuestions PersonalizedResults.lockedQuestions].
  destruct (Assessment.training_questions a) as [qs |]; cbn.
  - split; [apply filter_partition |]. split.
    + apply Forall_forall. intros q Hq%list_elem_of_In%filter_In. tauto.
    + apply Forall_forall. intros q Hq%list_elem_of_In%filter_In.
      by destruct Hq as [_ ?%negb_true_iff].
  - split; [reflexivity |]. split; constructor.
Qed.

(** X21.  The insights shown and the button under them add up: collapsed, the
    card shows the first three insights and the button counts the rest;
    there is no button for three insights or fewer; expanded, all are
    shown. *)
Theorem insights_shown_and_counted (keyInsights : list string) :
  (length (PersonalizedResults.shown_insights false keyInsights)
   + default O (PersonalizedResults.more_count keyInsights)
   = length keyInsights)%nat /\
  PersonalizedResults.shown_insights false keyInsights `prefix_of` keyInsights /\
  (PersonalizedResults.more_count keyInsights = None <->
   (length keyInsights <= 3)%nat) /\
  PersonalizedResults.shown_insights true keyInsights = keyInsights.
Proof.
  unfold PersonalizedResults.shown_insights, PersonalizedResults.more_count.
  split; [| split; [| split]].
  - rewrite length_take. destruct (Nat.ltb_spec 3 (length keyInsights));
      unfold default, id; lia.
  - apply prefix_take.
  - destruct (Nat.ltb_spec 3 (length keyInsights)); split; try done; lia.
  - reflexivity.
Qed.

End ScreenExtras.

(** ** The pace, from below *)

(** The pace is at most one under the integer part of the exact words
    per minute. *)
Definition pace_within_one (seconds words : Z) : bool :=
  match speaking_pace_of words seconds with
  | inr p =>
      (p * seconds <=? 60 * words) && (60 * words <? (p + 2) * seconds)
  | inl _ => false
  end.

Lemma pace_within_one_checked :
  all_from 120 1 (fun seconds => all_from 301 0 (pace_within_one seconds))
  = true.
Proof. vm_compute. reflexivity. Qed.

(** X22.  For a recording of 1 to 120 seconds and up to 300 words the pace is
    the integer part of [60 * words / seconds] or one less; and one less
    does happen where the quotient is whole: 49 words in 3 seconds are
    exactly 980 words a minute, and the code returns 979. *)
Theorem speaking_pace_within_one (words seconds : Z) :
  1 <= seconds <= 120 ->
  0 <= words <= 300 ->
  exists p,
    speaking_pace_of words seconds = inr p /\
    (p = 60 * words / seconds \/ p = 60 * words / seconds - 1) /\
    speaking_pace_of 49 3 = inr 979 /\
    60 * 49 / 3 = 980 /\ (60 * 49) mod 3 = 0.
Proof.
  intros Hs Hw.
  pose proof (all_from_spec _ _ _ pace_within_one_checked seconds
                ltac:(lia)) as Hrow.
  pose proof (all_from_spec _ _ _ Hrow words ltac:(lia)) as Hok.
  unfold pace_within_one in Hok.
  destruct (speaking_pace_of words seconds) as [e | p]; [discriminate |].
  apply andb_prop in Hok as [Hle%Z.leb_le Hlt%Z.ltb_lt].
  exists p. split; [reflexivity |]. split.
  - assert (p <= 60 * words / seconds)
      by (apply Z.div_le_lower_bound; lia).
    assert (60 * words / seconds < p + 2)
      by (apply Z.div_lt_upper_bound; lia).
    lia.
  - split; [vm_compute; reflexivity |]. split; reflexivity.
Qed.

(** X22 witness.  49 words in 3 seconds. *)
Lemma speaking_pace_within_one_witness :
  exists p,
    speaking_pace_of 49 3 = inr p /\
    (p = 60 * 49 / 3 \/ p = 60 * 49 / 3 - 1) /\
    speaking_pace_of 49 3 = inr 979 /\
    60 * 49 / 3 = 980 /\ (60 * 49) mod 3 = 0.
Proof. apply (speaking_pace_within_one 49 3); lia. Defined.

(** ** Witnesses *)

(** The sample world with [total] assessments already made by the user. *)
Definition sample_services_at (total : Z) (decoded : result (list N))
  (transcribed : result pystr) (chat : result pystr)
  (parsed : result pyval) : Services :=
  {| SECRET_KEY := py "secret";
     jwt_decode := fun _ _ => inr {[ py "user_id" := PStr (py "u1") ]};
     users_find_one := fun _ => Some sample_user;
     count_this_month := fun _ => total;
     count_total := fun _ => total;
     uuid4 := py "a1";
     gettempdir := py "/tmp";
     utcnow := fun _ => PNone;
     b64decode := fun _ => decoded;
     transcriptions_create := fun _ => transcribed;
     chat_completions_create := fun _ _ => chat;
     json_loads := fun _ => parsed;
     format_value := fun _ => [] |}.

(** A user who has used the five free assessments. *)
Definition world_at_limit : Services :=
  sample_services_at 5 (inr []) (inr []) (inr [])
    (inr (reply_with_score 80)).

(** The transcription service refuses the audio. *)
Definition world_no_transcript : Services :=
  sample_services (inr [0%N]) (inl (PyError "BadRequestError"
                                      (py "Invalid file format.")))
    (inr []) (inr (reply_with_score 80)).

(** The model answers eleven questions, or no archetype. *)
Definition eleven_questions : gmap pystr pyval :=
  <[py "questions" := PList (replicate 11 PNone)]> (reply_object 80).

Definition world_many_questions : Services :=
  sample_services (inr []) (inr []) (inr []) (inr (PDict eleven_questions)).

Definition no_archetype : gmap pystr pyval :=
  {[ py "overall_score" := PInt 80 ]}.

Definition world_no_archetype : Services :=
  sample_services (inr []) (inr []) (inr []) (inr (PDict no_archetype)).

(** X2 witness.  A free user with five assessments. *)
Lemma usage_limit_refuses_without_effect_witness :
  @analyze_voice ascii_runtime world_at_limit (sample_request 60)
  = ([], inl (HTTPException 403 (py "Limit reached"))) /\
  processing_error
    (Some (response_status
             (snd (@analyze_voice ascii_runtime world_at_limit
                     (sample_request 60)))))
  = "Usage limit reached. Upgrade to premium."%string.
Proof.
  apply (@usage_limit_refuses_without_effect ascii_runtime world_at_limit
           (sample_request 60) sample_user sample_user);
    [vm_compute; reflexivity | reflexivity | simpl; lia].
Defined.

(** X4 witness.  The sample request without its header. *)
Lemma missing_header_is_not_401_witness :
  exists msg,
    @analyze_voice ascii_runtime world80
      (with_authorization (sample_request 60) None)
    = ([Log ERROR (py "Error: " ++
                   py "'NoneType' object has no attribute 'replace'")],
       inl (PyError "UnboundLocalError" msg)) /\
    response_status
      (snd (@analyze_voice ascii_runtime world80
              (with_authorization (sample_request 60) None))) = 500 /\
    processing_error
      (Some (response_status
               (snd (@analyze_voice ascii_runtime world80
                       (with_authorization (sample_request 60) None)))))
    = "Processing failed. Try again."%string.
Proof.
  apply (@missing_header_is_not_401 ascii_runtime world80
           (with_authorization (sample_request 60) None)).
  reflexivity.
Defined.

(** X5 witness.  A silent minute in [world80]. *)
Lemma successful_run_witness :
  exists tr response,
    @analyze_voice ascii_runtime world80 (sample_request 60)
    = (tr, inr response) /\
    logs tr = [] /\
    file_events tr
    = [FileWrite (@temp_audio_path_of world80 (py "a1")) [];
       FileRemove (@temp_audio_path_of world80 (py "a1"))] /\
    response !! py "status" = Some (PStr (py "completed")).
Proof.
  destruct (@successful_run ascii_runtime world80 (sample_request 60)
              sample_user [] [] (silent_analysis (reply_object 80))
              (PList []))
    as (tr & response & created & filter & stored & asked & Hrun & Hlogs &
        Hfiles & _ & _ & _ & _ & _ & _ & _ & _ & _ & Hstatus).
  - vm_compute. reflexivity.
  - reflexivity.
  - reflexivity.
  - apply (silent_analysis_run (reply_object 80)).
  - vm_compute. reflexivity.
  - exists tr, response. auto.
Defined.

(** X6 witness.  The service refuses the file format. *)
Lemma failed_transcription_leaves_the_file_witness :
  exists tr,
    @analyze_voice ascii_runtime world_no_transcript (sample_request 60)
    = (tr, inl (HTTPException 500 (py "Invalid file format."))) /\
    file_events tr
    = [FileWrite (@temp_audio_path_of world_no_transcript (py "a1")) [0%N]].
Proof.
  apply (@failed_transcription_leaves_the_file ascii_runtime
           world_no_transcript (sample_request 60) sample_user [0%N]
           "BadRequestError" (py "Invalid file format."));
    [vm_compute; reflexivity | reflexivity | reflexivity].
Defined.

(** X7 witness.  The sample request with a time of zero. *)
Lemma zero_recording_time_fails_witness :
  @analyze_transcription ascii_runtime world80 []
    (recording_time (sample_request 0))
  = inl (PyError "ZeroDivisionError" (py "division by zero")) /\
  exists tr,
    @analyze_voice ascii_runtime world80 (sample_request 0)
    = (tr, inl (HTTPException 500 (py "division by zero"))) /\
    logs tr = [(ERROR, py "Error: " ++ py "division by zero")].
Proof.
  apply (@zero_recording_time_fails ascii_runtime world80 (sample_request 0)
           sample_user [] []);
    [vm_compute; reflexivity | reflexivity | reflexivity | reflexivity].
Defined.

(** X8 witness.  The model answers eleven questions. *)
Lemma at_most_ten_questions_witness :
  (length (replicate 10 PNone) <= 10)%nat /\
  exists archetype improvements content g all,
    silent_analysis eleven_questions !! py "archetype" = Some archetype /\
    silent_analysis eleven_questions !! py "improvements"
    = Some improvements /\
    @chat_completions_create world_many_questions
      (py "You are a communication coach.")
      (@questions_prompt world_many_questions archetype improvements)
    = inr content /\
    @json_loads world_many_questions content = inr (PDict g) /\
    g !! py "questions" = Some (PList all) /\
    replicate 10 PNone = take 10 all.
Proof.
  apply (@at_most_ten_questions ascii_runtime world_many_questions
           (silent_analysis eleven_questions) [] (replicate 10 PNone)).
  vm_compute. reflexivity.
Defined.

(** X9 witness.  The model answers a score and nothing else. *)
Lemma missing_archetype_fails_the_run_witness :
  exists tr,
    @analyze_voice ascii_runtime world_no_archetype (sample_request 60)
    = (tr, inl (HTTPException 500 (repr_str (py "archetype")))).
Proof.
  destruct (@missing_archetype_fails_the_run ascii_runtime world_no_archetype
              (sample_request 60) sample_user [] []
              (silent_analysis no_archetype))
    as (tr & Hrun & _).
  - vm_compute. reflexivity.
  - reflexivity.
  - reflexivity.
  - apply (silent_analysis_run no_archetype).
  - vm_compute. reflexivity.
  - exists tr. exact Hrun.
Defined.

(** X12 witness.  Two minutes. *)
Lemma formatTime_m_ss_witness : ApiTests.formatTime 120 = "2:00"%string.
Proof. apply (formatTime_m_ss 120). lia. Defined.

(** An analysis whose archetype under [insights] is the empty string. *)
Definition blank_insights : VoiceInsights.t :=
  {| VoiceInsights.voice_personality := Some ""%string;
     VoiceInsights.headline := None; VoiceInsights.key_insights := None;
     VoiceInsights.what_went_well := None;
     VoiceInsights.growth_opportunities := None;
     VoiceInsights.tone_description := None;
     VoiceInsights.overall_score := None;
     VoiceInsights.clarity_score := None;
     VoiceInsights.confidence_score := None;
     VoiceInsights.personalized_tips := None |}.

Definition blank_archetype_analysis : VoiceAnalysis.t :=
  {| VoiceAnalysis.insights := Some blank_insights;
     VoiceAnalysis.metrics := None;
     VoiceAnalysis.archetype := Some "Confident Presenter"%string;
     VoiceAnalysis.overall_score := None;
     VoiceAnalysis.clarity_score := None;
     VoiceAnalysis.confidence_score := None; VoiceAnalysis.tone := None;
     VoiceAnalysis.strengths := None; VoiceAnalysis.improvements := None;
     VoiceAnalysis.pitch_avg := None; VoiceAnalysis.pitch_range := None;
     VoiceAnalysis.speaking_pace := None;
     VoiceAnalysis.filler_words := Some [("um"%string, 3%float)];
     VoiceAnalysis.filler_count := None; VoiceAnalysis.word_count := None |}.

(** X16 witness.  An empty personality over a legacy archetype. *)
Lemma helpers_part_on_empty_strings_witness :
  Types.getArchetype (Some blank_archetype_analysis) = Some ""%string /\
  ResultsScreen.archetype
    (ResultsScreen.extract (Some blank_archetype_analysis))
  = Some "Confident Presenter"%string.
Proof.
  apply (helpers_part_on_empty_strings blank_archetype_analysis
           blank_insights "Confident Presenter");
    [reflexivity | reflexivity | reflexivity | discriminate].
Defined.

(** X17 witness.  Filler words stored without a count. *)
Lemma filler_section_needs_filler_count_witness :
  ResultsScreen.fillerSection
    (ResultsScreen.view (assessment_of blank_archetype_analysis)) = None.
Proof.
  apply (filler_section_needs_filler_count
           (assessment_of blank_archetype_analysis)).
  reflexivity.
Defined.
